(** * EXAI UI workflow gateway: a shallow embedding of the step-submission
    route, the adapter factory and the two adapter families.

    Sources embedded here:
    - [app/api/exai/[tool]/route.ts]            ([toolSchema], [VALID_TOOLS], [POST])
    - [lib/adapters/AdapterFactory.ts]          ([getMode], [getExaiAdapter], [getDatabaseAdapter])
    - [lib/adapters/interfaces/IDatabaseAdapter.ts], [IExaiAdapter.ts]
    - [lib/adapters/implementations/LocalDatabaseAdapter.ts]
    - [lib/adapters/implementations/SupabaseDatabaseAdapter.ts]
    - [lib/adapters/implementations/LocalExaiAdapter.ts], [SupabaseExaiAdapter.ts]

    Conventions.  A JS [Date] is a [Z] (milliseconds).  A JS string is held
    as its UTF-8 bytes (a lone surrogate as the three bytes of its code
    point).  A JS number that passed [z.number().int()] is a [Z]; what the
    32-bit columns of the database make of it is written out where it is
    stored.  An optional field [f?: T] is [option T]; a field of a
    [Partial<...>] update whose type already admits [null] is
    [option (option T)] (absent / null / value).
    A promise is a [Handler]: a tree of awaited calls, each of which settles
    as [Fulfilled] or [Rejected]; [throw] is [Throw].  Console output is
    diagnostics only and is kept only where a function does nothing else. *)

From Stdlib Require Import ZArith QArith.
From stdpp Require Import gmap strings list pretty.

Open Scope string_scope.
Open Scope Z_scope.

(** ** Thrown values and settled promises *)

Record JsError := mkError { name : string; message : string }.

(** What a [catch] clause can receive: a [z.ZodError] with its issues, any
    other instance of [Error], or a value that is not an [Error]. *)
Inductive Thrown :=
| ZodError (issues : list string)
| ErrorObj (e : JsError)
| NonError (v : string).

Inductive Settled (A : Type) :=
| Fulfilled (a : A)
| Rejected (e : Thrown).
Arguments Fulfilled {A} a.
Arguments Rejected {A} e.

(** [new Error(msg)] *)
Definition new_Error (msg : string) : Thrown := ErrorObj (mkError "Error" msg).

(** [error instanceof Error]: a [ZodError] is an [Error] too. *)
Definition instanceof_Error (t : Thrown) : option JsError :=
  match t with
  | ZodError issues => Some (mkError "ZodError" (String.concat "; " issues))
  | ErrorObj e => Some e
  | NonError _ => None
  end.

(** JS truthiness of an optional string: [undefined], [null] and [''] are falsy. *)
Definition truthy (o : option string) : option string :=
  match o with
  | Some s => if String.eqb s "" then None else Some s
  | None => None
  end.

(** [a || b] on optional strings with a string default. *)
Definition or_default (o : option string) (d : string) : string :=
  match truthy o with Some s => s | None => d end.

(** *** [String.prototype.substring]

    A JS string is a sequence of UTF-16 code units.  In UTF-8 a character
    outside the Basic Multilingual Plane takes four bytes (lead byte 240 or
    above) and is two code units, a surrogate pair; every other character is
    one code unit, in one, two or three bytes. *)

(** The bytes that follow the lead byte [b] in its sequence. *)
Definition continuation_bytes (b : N) : nat :=
  if (b <? 192)%N then 0%nat
  else if (b <? 224)%N then 1%nat
  else if (b <? 240)%N then 2%nat
  else 3%nat.

(** The high surrogate of the character that the four bytes encode, as the
    three bytes of its own code point. *)
Definition high_surrogate (b0 b1 b2 b3 : N) : string :=
  let code_point := ((b0 mod 8) * 262144 + (b1 mod 64) * 4096
                     + (b2 mod 64) * 64 + b3 mod 64)%N in
  let high := (55296 + (code_point - 65536) / 1024)%N in
  String (Ascii.ascii_of_N 237)
    (String (Ascii.ascii_of_N (128 + (high / 64) mod 64))
       (String (Ascii.ascii_of_N (128 + high mod 64)) "")).

(** The first [len] code units of [s]; [pending] counts the continuation
    bytes still to copy of a character already taken.  When one code unit is
    left and the next character is a surrogate pair, its high surrogate is
    taken alone. *)
Fixpoint first_code_units (len pending : nat) (s : string) : string :=
  match s with
  | "" => ""
  | String c s' =>
      match pending with
      | S pending' => String c (first_code_units len pending' s')
      | O =>
          match len with
          | O => ""
          | S len' =>
              if (Ascii.N_of_ascii c <? 240)%N
              then String c (first_code_units len' (continuation_bytes (Ascii.N_of_ascii c)) s')
              else
                match len' with
                | S len'' => String c (first_code_units len'' 3 s')
                | O =>
                    match s' with
                    | String c1 (String c2 (String c3 _)) =>
                        high_surrogate (Ascii.N_of_ascii c) (Ascii.N_of_ascii c1)
                          (Ascii.N_of_ascii c2) (Ascii.N_of_ascii c3)
                    | _ => ""
                    end
                end
          end
      end
  end.

(** [s.substring(0, end)] *)
Definition substring_0 (end_ : nat) (s : string) : string := first_code_units end_ 0 s.

(** ** Data model ([IDatabaseAdapter.ts], [IExaiAdapter.ts]) *)

Module ExaiResponse.
Record t := mk {
  status : string;
  content : option string;
  continuation_id : option string;
  step_number : option Z;
  next_step_required : option bool;
  required_actions : option (list string);
  expert_analysis : option string;
  (** [metadata] and the open-ended tool-specific fields, as key/JSON-text pairs *)
  extra : list (string * string)
}.
End ExaiResponse.

(** The [metadata] object the route stores with a step: the five keys of the
    pre-call record and, on the post-call record, [response]. *)
Module StepMetadata.
Record t := mk {
  step : string;
  relevant_files : option (list string);
  files_checked : option (list string);
  relevant_context : option (list string);
  issues_found : option (list string);
  response : option ExaiResponse.t
}.
End StepMetadata.

Module Conversation.
Record t := mk {
  id : string;
  title : option string;
  toolType : string;
  userId : string;
  createdAt : Z;
  updatedAt : Z
}.
End Conversation.

Module Workflow.
Record t := mk {
  id : string;
  conversationId : string;
  toolType : string;
  status : string;
  currentStep : Z;
  totalSteps : Z;
  continuationId : option string;
  result : option ExaiResponse.t;
  createdAt : Z;
  updatedAt : Z
}.
End Workflow.

Module WorkflowStep.
Record t := mk {
  id : string;
  workflowId : string;
  stepNumber : Z;
  findings : string;
  hypothesis : option string;
  confidence : option string;
  status : string;
  metadata : StepMetadata.t;
  createdAt : Z
}.
End WorkflowStep.

(** [Omit<Conversation, 'id' | 'createdAt' | 'updatedAt'>] *)
Module CreateConversationInput.
Record t := mk { userId : string; toolType : string; title : option string }.
End CreateConversationInput.

Module CreateWorkflowInput.
Record t := mk {
  conversationId : string;
  toolType : string;
  status : string;
  currentStep : Z;
  totalSteps : Z;
  continuationId : option string;
  result : option ExaiResponse.t
}.
End CreateWorkflowInput.

Module CreateWorkflowStepInput.
Record t := mk {
  workflowId : string;
  stepNumber : Z;
  findings : string;
  hypothesis : option string;
  confidence : option string;
  status : string;
  metadata : StepMetadata.t
}.
End CreateWorkflowStepInput.

(** [Partial<Omit<Conversation, 'id' | 'createdAt' | 'updatedAt' | 'userId'>>];
    the route also passes [updatedAt], which the Prisma client accepts. *)
Module UpdateConversationInput.
Record t := mk {
  title : option (option string);
  toolType : option string;
  updatedAt : option Z
}.
Definition empty : t := mk None None None.
End UpdateConversationInput.

(** [Partial<Omit<Workflow, 'id' | 'createdAt' | 'updatedAt' | 'conversationId'>>] *)
Module UpdateWorkflowInput.
Record t := mk {
  toolType : option string;
  status : option string;
  currentStep : option Z;
  totalSteps : option Z;
  continuationId : option (option string);
  result : option (option ExaiResponse.t)
}.
End UpdateWorkflowInput.

(** ** The request body and [toolSchema] ([route.ts] lines 13-35) *)

(** The JSON body as received: every key may be missing.  JSON typing is
    fixed by the field types (a body with [step_number: "x"] is not
    represented); [temperature] is a rational. *)
Module ToolBody.
Record t := mk {
  step : option string;
  step_number : option Z;
  total_steps : option Z;
  next_step_required : option bool;
  findings : option string;
  conversationId : option string;
  workflowId : option string;
  continuation_id : option string;
  hypothesis : option string;
  confidence : option string;
  model : option string;
  temperature : option Q;
  thinking_mode : option string;
  use_websearch : option bool;
  files : option (list string);
  images : option (list string);
  relevant_files : option (list string);
  files_checked : option (list string);
  relevant_context : option (list string);
  issues_found : option (list string);
  backtrack_from_step : option Z;
  (** [.passthrough()]: unknown keys are kept *)
  passthrough : list (string * string)
}.
End ToolBody.

(** [z.infer<typeof toolSchema>], the type of [params_data]. *)
Module ToolParams.
Record t := mk {
  step : string;
  step_number : Z;
  total_steps : Z;
  next_step_required : bool;
  findings : string;
  conversationId : option string;
  workflowId : option string;
  continuation_id : option string;
  hypothesis : option string;
  confidence : option string;
  model : option string;
  temperature : option Q;
  thinking_mode : option string;
  use_websearch : option bool;
  files : option (list string);
  images : option (list string);
  relevant_files : option (list string);
  files_checked : option (list string);
  relevant_context : option (list string);
  issues_found : option (list string);
  backtrack_from_step : option Z;
  passthrough : list (string * string)
}.
End ToolParams.

Definition includes (l : list string) (s : string) : bool :=
  existsb (String.eqb s) l.

Definition confidence_enum : list string :=
  ["exploring"; "low"; "medium"; "high"; "very_high"; "almost_certain"; "certain"].

Definition thinking_mode_enum : list string :=
  ["minimal"; "low"; "medium"; "high"; "max"].

(** One issue (the offending key) per failed check, in schema order. *)
Definition toolSchema_issues (b : ToolBody.t) : list string :=
  (match ToolBody.step b with
   | Some s => if (1 <=? Z.of_nat (String.length s)) then [] else ["step"]
   | None => ["step"] end) ++
  (match ToolBody.step_number b with
   | Some n => if 1 <=? n then [] else ["step_number"]
   | None => ["step_number"] end) ++
  (match ToolBody.total_steps b with
   | Some n => if 1 <=? n then [] else ["total_steps"]
   | None => ["total_steps"] end) ++
  (match ToolBody.next_step_required b with Some _ => [] | None => ["next_step_required"] end) ++
  (match ToolBody.findings b with Some _ => [] | None => ["findings"] end) ++
  (match ToolBody.confidence b with
   | Some c => if includes confidence_enum c then [] else ["confidence"]
   | None => [] end) ++
  (match ToolBody.temperature b with
   | Some q => if Qle_bool 0 q && Qle_bool q 1 then [] else ["temperature"]
   | None => [] end) ++
  (match ToolBody.thinking_mode b with
   | Some m => if includes thinking_mode_enum m then [] else ["thinking_mode"]
   | None => [] end).

(** [toolSchema.parse(body)]: the parsed parameters, or a thrown [ZodError]. *)
Definition toolSchema_parse (b : ToolBody.t) : Settled ToolParams.t :=
  match ToolBody.step b, ToolBody.step_number b, ToolBody.total_steps b,
        ToolBody.next_step_required b, ToolBody.findings b, toolSchema_issues b with
  | Some step, Some step_number, Some total_steps, Some next, Some findings, [] =>
      Fulfilled (ToolParams.mk step step_number total_steps next findings
        (ToolBody.conversationId b) (ToolBody.workflowId b) (ToolBody.continuation_id b)
        (ToolBody.hypothesis b) (ToolBody.confidence b) (ToolBody.model b)
        (ToolBody.temperature b) (ToolBody.thinking_mode b) (ToolBody.use_websearch b)
        (ToolBody.files b) (ToolBody.images b) (ToolBody.relevant_files b)
        (ToolBody.files_checked b) (ToolBody.relevant_context b) (ToolBody.issues_found b)
        (ToolBody.backtrack_from_step b) (ToolBody.passthrough b))
  | _, _, _, _, _, issues => Rejected (ZodError issues)
  end.

Definition VALID_TOOLS : list string :=
  ["debug"; "analyze"; "codereview"; "secaudit"; "docgen"; "testgen";
   "planner"; "consensus"; "precommit"; "refactor"; "tracer"; "thinkdeep"].

(** ** The persisted record set and the Persistence Adapter contract *)

(** The tables behind the local (Prisma) adapter.  Conversations and
    workflows are keyed by their primary key; workflow steps are kept as the
    rows in insertion order, the order in which a stable sort returns rows
    with equal [stepNumber].  The user table is not modelled: a session's user
    id is taken to reference a stored user. *)
Record Db := mkDb {
  conversations : gmap string Conversation.t;
  workflows : gmap string Workflow.t;
  workflowSteps : list WorkflowStep.t
}.

(** A database operation: it reads the server clock and the tables and
    settles with a value or a rejection, leaving the tables as it wrote them. *)
Definition Query (S X : Type) : Type := Z -> S -> Settled X * S.

(** [IDatabaseAdapter], restricted to the conversation, workflow and
    workflow-step operations, over a backend state [S]. *)
Record IDatabaseAdapter (S : Type) := mkDatabaseAdapter {
  createConversation : CreateConversationInput.t -> Query S Conversation.t;
  getConversation : string -> Query S (option Conversation.t);
  updateConversation : string -> UpdateConversationInput.t -> Query S Conversation.t;
  createWorkflow : CreateWorkflowInput.t -> Query S Workflow.t;
  getWorkflow : string -> Query S (option Workflow.t);
  updateWorkflow : string -> UpdateWorkflowInput.t -> Query S Workflow.t;
  createWorkflowStep : CreateWorkflowStepInput.t -> Query S WorkflowStep.t;
  getWorkflowSteps : string -> Query S (list WorkflowStep.t)
}.
Arguments createConversation {S} _ _ _ _.
Arguments getConversation {S} _ _ _ _.
Arguments updateConversation {S} _ _ _ _ _.
Arguments createWorkflow {S} _ _ _ _.
Arguments getWorkflow {S} _ _ _ _.
Arguments updateWorkflow {S} _ _ _ _ _.
Arguments createWorkflowStep {S} _ _ _ _.
Arguments getWorkflowSteps {S} _ _ _ _.

(** A field of a partial update: the supplied value, else the stored one. *)
Definition supplied {A : Type} (o : option A) (old : A) : A :=
  match o with Some v => v | None => old end.

(** The values of a Prisma [Int] field, and of an [INTEGER] column: 32-bit
    signed integers. *)
Definition is_Int32 (n : Z) : bool := (-2147483648 <=? n) && (n <=? 2147483647).

(** An optional [Int] of an update: nothing to store, or a value that fits. *)
Definition fits_Int32 (o : option Z) : bool :=
  match o with Some n => is_Int32 n | None => true end.

(** Rows ordered by [stepNumber] ascending ([orderBy: { stepNumber: 'asc' }]):
    a stable insertion sort, so rows of equal [stepNumber] come in the order
    in which they were stored. *)
Fixpoint insert_by_stepNumber (s : WorkflowStep.t) (l : list WorkflowStep.t)
  : list WorkflowStep.t :=
  match l with
  | [] => [s]
  | x :: r =>
      if WorkflowStep.stepNumber s <=? WorkflowStep.stepNumber x
      then s :: x :: r
      else x :: insert_by_stepNumber s r
  end.

Definition orderBy_stepNumber (l : list WorkflowStep.t) : list WorkflowStep.t :=
  foldr insert_by_stepNumber [] l.

(** *** [LocalDatabaseAdapter]: the Prisma client

    Every method hands its input to the Prisma client unchanged.  The schema
    is the one of [docs/03-architecture-requirements.md] (and of the Supabase
    migration): ids are [@default(cuid())], [updatedAt] is [@updatedAt], a
    workflow belongs to a conversation and a step to a workflow.  So [create]
    assigns a fresh primary key (here the first key the table does not hold)
    and the timestamps, and rejects when the foreign key names no stored row
    (P2003); [update] changes only the supplied fields, sets [updatedAt]
    unless it is supplied, and rejects when no row has the key (P2025);
    [findUnique] resolves to [null] for an absent key.  [currentStep],
    [totalSteps] and [stepNumber] are [Int]: a value that does not fit 32 bits
    is rejected (P2020) before anything is written.  The [message] of the
    error stands for the text Prisma composes; it is given as the error
    code. *)
Module LocalDatabaseAdapter.

Definition prisma_error (code : string) : Thrown :=
  ErrorObj (mkError "PrismaClientKnownRequestError" code).

Definition createConversation (data : CreateConversationInput.t) : Query Db Conversation.t :=
  fun now db =>
    let id := fresh (dom (conversations db)) in
    let row := Conversation.mk id (CreateConversationInput.title data)
                 (CreateConversationInput.toolType data)
                 (CreateConversationInput.userId data) now now in
    (Fulfilled row,
     mkDb (<[id := row]> (conversations db)) (workflows db) (workflowSteps db)).

Definition getConversation (id : string) : Query Db (option Conversation.t) :=
  fun now db => (Fulfilled (conversations db !! id), db).

Definition updateConversation (id : string) (data : UpdateConversationInput.t)
  : Query Db Conversation.t :=
  fun now db =>
    match conversations db !! id with
    | None => (Rejected (prisma_error "P2025"), db)
    | Some c =>
        let row := Conversation.mk (Conversation.id c)
                     (supplied (UpdateConversationInput.title data) (Conversation.title c))
                     (supplied (UpdateConversationInput.toolType data) (Conversation.toolType c))
                     (Conversation.userId c) (Conversation.createdAt c)
                     (supplied (UpdateConversationInput.updatedAt data) now) in
        (Fulfilled row,
         mkDb (<[id := row]> (conversations db)) (workflows db) (workflowSteps db))
    end.

Definition createWorkflow (data : CreateWorkflowInput.t) : Query Db Workflow.t :=
  fun now db =>
    if negb (is_Int32 (CreateWorkflowInput.currentStep data)
             && is_Int32 (CreateWorkflowInput.totalSteps data))
    then (Rejected (prisma_error "P2020"), db)
    else
    match conversations db !! CreateWorkflowInput.conversationId data with
    | None => (Rejected (prisma_error "P2003"), db)
    | Some _ =>
        let id := fresh (dom (workflows db)) in
        let row := Workflow.mk id (CreateWorkflowInput.conversationId data)
                     (CreateWorkflowInput.toolType data) (CreateWorkflowInput.status data)
                     (CreateWorkflowInput.currentStep data) (CreateWorkflowInput.totalSteps data)
                     (CreateWorkflowInput.continuationId data) (CreateWorkflowInput.result data)
                     now now in
        (Fulfilled row,
         mkDb (conversations db) (<[id := row]> (workflows db)) (workflowSteps db))
    end.

Definition getWorkflow (id : string) : Query Db (option Workflow.t) :=
  fun now db => (Fulfilled (workflows db !! id), db).

Definition updateWorkflow (id : string) (data : UpdateWorkflowInput.t) : Query Db Workflow.t :=
  fun now db =>
    if negb (fits_Int32 (UpdateWorkflowInput.currentStep data)
             && fits_Int32 (UpdateWorkflowInput.totalSteps data))
    then (Rejected (prisma_error "P2020"), db)
    else
    match workflows db !! id with
    | None => (Rejected (prisma_error "P2025"), db)
    | Some w =>
        let row := Workflow.mk (Workflow.id w) (Workflow.conversationId w)
                     (supplied (UpdateWorkflowInput.toolType data) (Workflow.toolType w))
                     (supplied (UpdateWorkflowInput.status data) (Workflow.status w))
                     (supplied (UpdateWorkflowInput.currentStep data) (Workflow.currentStep w))
                     (supplied (UpdateWorkflowInput.totalSteps data) (Workflow.totalSteps w))
                     (supplied (UpdateWorkflowInput.continuationId data) (Workflow.continuationId w))
                     (supplied (UpdateWorkflowInput.result data) (Workflow.result w))
                     (Workflow.createdAt w) now in
        (Fulfilled row,
         mkDb (conversations db) (<[id := row]> (workflows db)) (workflowSteps db))
    end.

Definition createWorkflowStep (data : CreateWorkflowStepInput.t) : Query Db WorkflowStep.t :=
  fun now db =>
    if negb (is_Int32 (CreateWorkflowStepInput.stepNumber data))
    then (Rejected (prisma_error "P2020"), db)
    else
    match workflows db !! CreateWorkflowStepInput.workflowId data with
    | None => (Rejected (prisma_error "P2003"), db)
    | Some _ =>
        let id := fresh (list_to_set (WorkflowStep.id <$> workflowSteps db) : gset string) in
        let row := WorkflowStep.mk id (CreateWorkflowStepInput.workflowId data)
                     (CreateWorkflowStepInput.stepNumber data)
                     (CreateWorkflowStepInput.findings data)
                     (CreateWorkflowStepInput.hypothesis data)
                     (CreateWorkflowStepInput.confidence data)
                     (CreateWorkflowStepInput.status data)
                     (CreateWorkflowStepInput.metadata data) now in
        (Fulfilled row,
         mkDb (conversations db) (workflows db) (workflowSteps db ++ [row]))
    end.

Definition getWorkflowSteps (workflowId : string) : Query Db (list WorkflowStep.t) :=
  fun now db =>
    (Fulfilled (orderBy_stepNumber
                  (filter (fun s => WorkflowStep.workflowId s = workflowId) (workflowSteps db))),
     db).

Definition adapter : IDatabaseAdapter Db :=
  mkDatabaseAdapter Db createConversation getConversation updateConversation
    createWorkflow getWorkflow updateWorkflow createWorkflowStep getWorkflowSteps.

End LocalDatabaseAdapter.

(** ** Awaited calls, handlers and the world they run in *)

(** What [response.json()] makes of a body: the parsed value, or the
    [SyntaxError] of [JSON.parse] with its message. *)
Inductive BodyJson :=
| Json (data : ExaiResponse.t)
| NotJson (message : string).

Record HttpResponse := mkHttpResponse {
  http_status : Z;
  statusText : string;
  (** how long the body takes to arrive once the headers are there *)
  body_time : Z;
  (** the body, read as JSON *)
  http_body : BodyJson
}.

(** [response.ok] *)
Definition ok (r : HttpResponse) : bool :=
  (200 <=? http_status r) && (http_status r <=? 299).

Inductive FetchOutcome :=
| NetworkFailure (msg : string)
| Http (r : HttpResponse).

(** What the EXAI daemon does with one request: how long it takes until
    [fetch] settles (with the response's status line and headers, or with a
    network failure), and how it settles. *)
Record DaemonReply := mkReply { latency : Z; outcome : FetchOutcome }.

Record World := mkWorld {
  db : Db;
  now : Z;
  daemon : string -> ToolParams.t -> DaemonReply
}.

(** The calls a handler awaits.  Each is one atomic step against the world;
    other requests may run between two of them. *)
Inductive Call : Type -> Type :=
| DbQuery {X : Type} (q : Query Db X) : Call X
| Fetch (url : string) (body : ToolParams.t) (timeout : Z) : Call HttpResponse
| ResponseJson (r : HttpResponse) : Call ExaiResponse.t.

Inductive Handler (A : Type) : Type :=
| Done (a : A)
| Throw (e : Thrown)
| Await {X : Type} (c : Call X) (k : Settled X -> Handler A).
Arguments Done {A} a.
Arguments Throw {A} e.
Arguments Await {A X} c k.

Fixpoint bind {A B : Type} (h : Handler A) (f : A -> Handler B) : Handler B :=
  match h with
  | Done a => f a
  | Throw e => Throw e
  | Await c k => Await c (fun r => bind (k r) f)
  end.

(** [try { h } catch (error) { handler error }] *)
Fixpoint try_catch {A : Type} (h : Handler A) (handler : Thrown -> Handler A) : Handler A :=
  match h with
  | Done a => Done a
  | Throw e => handler e
  | Await c k => Await c (fun r => try_catch (k r) handler)
  end.

(** [await call]: the value, or the rejection rethrown. *)
Definition await {X : Type} (c : Call X) : Handler X :=
  Await c (fun r => match r with Fulfilled x => Done x | Rejected e => Throw e end).

(** A synchronous call that may throw. *)
Definition lift {A : Type} (r : Settled A) : Handler A :=
  match r with Fulfilled a => Done a | Rejected e => Throw e end.

Declare Scope handler_scope.
Delimit Scope handler_scope with handler.
Notation "x <- c ;; k" := (bind c (fun x => k))
  (at level 100, c at next level, right associativity) : handler_scope.
Notation "c ;;; k" := (bind c (fun _ => k))
  (at level 100, right associativity) : handler_scope.

(** The abort signal of [AbortController.abort()] as [fetch] rejects with it. *)
Definition AbortError : Thrown := ErrorObj (mkError "AbortError" "This operation was aborted").

(** [setTimeout(callback, delay)]: the time after which the timer fires.  A
    delay below 1 or above 2147483647 is set to 1. *)
Definition timer_delay (delay : Z) : Z :=
  if (delay <? 1) || (2147483647 <? delay) then 1 else delay.

(** One awaited call against the world.  [Fetch url body timeout] is the
    [fetch] of [makeRequest] with its timer: [setTimeout(() =>
    controller.abort(), timeout)] before it, [clearTimeout] once it has
    settled.  It rejects with [AbortError] when [fetch] has not settled by the
    time the timer fires.  [ResponseJson] is [response.json()], awaited after
    the timer has been cleared: it takes as long as the body takes.  The clock
    advances by the time waited. *)
Definition exec {X : Type} (c : Call X) (w : World) : Settled X * World :=
  match c in Call X return Settled X * World with
  | DbQuery q =>
      let '(r, db') := q (now w) (db w) in (r, mkWorld db' (now w) (daemon w))
  | Fetch url body timeout =>
      let reply := daemon w url body in
      if timer_delay timeout <=? latency reply
      then (Rejected AbortError, mkWorld (db w) (now w + timer_delay timeout) (daemon w))
      else (match outcome reply with
            | NetworkFailure msg => Rejected (ErrorObj (mkError "TypeError" msg))
            | Http r => Fulfilled r
            end,
            mkWorld (db w) (now w + Z.max 0 (latency reply)) (daemon w))
  | ResponseJson r =>
      (match http_body r with
       | Json data => Fulfilled data
       | NotJson message => Rejected (ErrorObj (mkError "SyntaxError" message))
       end,
       mkWorld (db w) (now w + Z.max 0 (body_time r)) (daemon w))
  end.

(** A handler run alone, from its first call to its settlement. *)
Fixpoint run {A : Type} (h : Handler A) (w : World) : Settled A * World :=
  match h with
  | Done a => (Fulfilled a, w)
  | Throw e => (Rejected e, w)
  | Await c k => let '(r, w') := exec c w in run (k r) w'
  end.

(** One step of a handler: its next awaited call, if it has not settled. *)
Definition step {A : Type} (h : Handler A) (w : World) : Handler A * World :=
  match h with
  | Await c k => let '(r, w') := exec c w in (k r, w')
  | _ => (h, w)
  end.

(** Two handlers in flight at once.  The schedule says whose call runs next
    ([true]: the first); when the schedule ends, the first runs to its end and
    then the second. *)
Fixpoint interleave {A B : Type} (sched : list bool) (h1 : Handler A) (h2 : Handler B)
  (w : World) : Settled A * Settled B * World :=
  match sched with
  | [] =>
      let '(r1, w1) := run h1 w in
      let '(r2, w2) := run h2 w1 in
      (r1, r2, w2)
  | true :: sched' => let '(h1', w') := step h1 w in interleave sched' h1' h2 w'
  | false :: sched' => let '(h2', w') := step h2 w in interleave sched' h1 h2' w'
  end.

(** ** Tool Execution Adapters *)

(** [IExaiAdapter], restricted to the operation the step route uses. *)
Record IExaiAdapter := mkExaiAdapter {
  executeTool : string -> ToolParams.t -> Handler ExaiResponse.t
}.

(** The [catch] clause shared, word for word, by both [makeRequest]s. *)
Definition makeRequest_catch (error : Thrown) : Handler ExaiResponse.t :=
  match instanceof_Error error with
  | Some e =>
      if String.eqb (name e) "AbortError"
      then Throw (new_Error "EXAI request timeout")
      else Throw (new_Error ("EXAI request failed: " ++ message e))
  | None => Throw error
  end.

Module LocalExaiAdapter.

Record t := mk { daemonUrl : string; timeout : Z }.

(** [constructor(daemonUrl = 'http://127.0.0.1:8765', timeout = 300000)] *)
Definition new (daemonUrl : option string) (timeout : option Z) : t :=
  mk (default "http://127.0.0.1:8765" daemonUrl) (default 300000 timeout).

Definition makeRequest (self : t) (endpoint : string) (params : ToolParams.t)
  : Handler ExaiResponse.t :=
  try_catch
    (response <- await (Fetch (daemonUrl self ++ endpoint) params (timeout self)) ;;
     if negb (ok response)
     then Throw (new_Error ("EXAI daemon error: " ++ pretty (http_status response)
                             ++ " " ++ statusText response))
     else
       data <- await (ResponseJson response) ;;
       Done data)%handler
    makeRequest_catch.

Definition executeTool (self : t) (tool : string) (params : ToolParams.t)
  : Handler ExaiResponse.t :=
  makeRequest self ("/" ++ tool) params.

Definition adapter (self : t) : IExaiAdapter := mkExaiAdapter (executeTool self).

End LocalExaiAdapter.

(** [process.env], as far as the adapters read it.  [EXAI_TIMEOUT] holds the
    integer [parseInt(..., 10)] reads from the variable when it is set and
    non-empty. *)
Record Env := mkEnv {
  ADAPTER_MODE : option string;
  EXAI_DAEMON_URL : option string;
  EXAI_CLOUD_URL : option string;
  EXAI_TIMEOUT : option Z
}.

Module SupabaseExaiAdapter.

Record t := mk { exaiUrl : string; timeout : Z }.

Definition new (env : Env) : t :=
  mk (match truthy (EXAI_CLOUD_URL env) with
      | Some u => u
      | None => or_default (EXAI_DAEMON_URL env) "http://127.0.0.1:8765"
      end)
     (default 300000 (EXAI_TIMEOUT env)).

Definition makeRequest (self : t) (endpoint : string) (params : ToolParams.t)
  : Handler ExaiResponse.t :=
  try_catch
    (response <- await (Fetch (exaiUrl self ++ endpoint) params (timeout self)) ;;
     if negb (ok response)
     then Throw (new_Error ("EXAI daemon error: " ++ pretty (http_status response)
                             ++ " " ++ statusText response))
     else
       data <- await (ResponseJson response) ;;
       Done data)%handler
    makeRequest_catch.

Definition executeTool (self : t) (tool : string) (params : ToolParams.t)
  : Handler ExaiResponse.t :=
  makeRequest self ("/" ++ tool) params.

Definition adapter (self : t) : IExaiAdapter := mkExaiAdapter (executeTool self).

End SupabaseExaiAdapter.

(** ** [AdapterFactory] *)

Inductive AdapterMode := local | supabase.

Module AdapterFactory.

(** [getMode()]: the mode, and what it writes with [console.warn]. *)
Definition getMode (env : Env) : AdapterMode * list string :=
  match ADAPTER_MODE env with
  | Some mode =>
      if String.eqb mode "local" then (local, [])
      else if String.eqb mode "supabase" then (supabase, [])
      else (local, ["Invalid ADAPTER_MODE: " ++ mode ++ ". Defaulting to 'local'"])
  | None => (local, ["Invalid ADAPTER_MODE: undefined. Defaulting to 'local'"])
  end.

(** [getExaiAdapter()].  The cached instance is rebuilt from the same
    environment, so the cache is not modelled. *)
Definition getExaiAdapter (env : Env) : Settled IExaiAdapter :=
  match fst (getMode env) with
  | local =>
      Fulfilled (LocalExaiAdapter.adapter
                   (LocalExaiAdapter.mk
                      (or_default (EXAI_DAEMON_URL env) "http://127.0.0.1:8765")
                      (default 300000 (EXAI_TIMEOUT env))))
  | supabase => Rejected (new_Error "Supabase EXAI adapter not yet implemented")
  end.

Definition getDatabaseAdapter (env : Env) : Settled (IDatabaseAdapter Db) :=
  match fst (getMode env) with
  | local => Fulfilled LocalDatabaseAdapter.adapter
  | supabase => Rejected (new_Error "Supabase database adapter not yet implemented")
  end.

End AdapterFactory.

(** ** The step-submission route ([route.ts], [POST]) *)

Module Request.
Record t := mk {
  (** [params.tool], the route segment *)
  tool : string;
  (** [(session.user as any).id] of [getServerSession], [None] without a
      session user *)
  session_user : option string;
  (** [await request.json()], [None] when the body is not JSON *)
  json : option ToolBody.t
}.
End Request.

Inductive ResponseBody :=
| ErrorBody (error : string)
| ValidationErrorBody (details : list string)
| ToolResultBody (conversationId workflowId : string) (response : ExaiResponse.t).

(** [NextResponse.json(body, { status })] *)
Record NextResponse := json { body : ResponseBody; status : Z }.

(** [value || null] on an optional string *)
Definition or_null (o : option string) : option string := truthy o.

(** [await request.json()]: the body, or the [SyntaxError] of the parser when
    the body is not JSON.  The parser words its message after the body it was
    given; one of its messages stands for all of them. *)
Definition request_json (req : Request.t) : Handler ToolBody.t :=
  match Request.json req with
  | Some b => Done b
  | None => Throw (ErrorObj (mkError "SyntaxError" "Unexpected end of JSON input"))
  end.

(** The metadata of the pre-call step record (lines 123-129). *)
Definition pre_call_metadata (params_data : ToolParams.t) : StepMetadata.t :=
  StepMetadata.mk (ToolParams.step params_data)
    (ToolParams.relevant_files params_data)
    (ToolParams.files_checked params_data)
    (ToolParams.relevant_context params_data)
    (ToolParams.issues_found params_data)
    None.

(** [{ ...currentStepRecord.metadata, response: response }] (lines 146-149). *)
Definition with_response (m : StepMetadata.t) (response : ExaiResponse.t) : StepMetadata.t :=
  StepMetadata.mk (StepMetadata.step m) (StepMetadata.relevant_files m)
    (StepMetadata.files_checked m) (StepMetadata.relevant_context m)
    (StepMetadata.issues_found m) (Some response).

Definition step_input (workflowId : string) (params_data : ToolParams.t)
  (status : string) (metadata : StepMetadata.t) : CreateWorkflowStepInput.t :=
  CreateWorkflowStepInput.mk workflowId
    (ToolParams.step_number params_data)
    (ToolParams.findings params_data)
    (or_null (ToolParams.hypothesis params_data))
    (or_null (ToolParams.confidence params_data))
    status metadata.

(** The blocks of the [try] body, each under the comment that heads it in
    the source. *)

(** [// Create or get conversation] (lines 81-90) *)
Definition create_or_get_conversation (db : IDatabaseAdapter Db) (userId tool : string)
  (params_data : ToolParams.t) : Handler string :=
  (match truthy (ToolParams.conversationId params_data) with
   | None =>
       conversation <- await (DbQuery (createConversation db
         (CreateConversationInput.mk userId tool
            (Some (tool ++ " - " ++ substring_0 50 (ToolParams.step params_data)))))) ;;
       Done (Conversation.id conversation)
   | Some conversationId => Done conversationId
   end)%handler.

(** [// Create or get workflow] (lines 92-113) *)
Definition create_or_get_workflow (db : IDatabaseAdapter Db) (tool : string)
  (params_data : ToolParams.t) (conversationId : string) : Handler string :=
  (match truthy (ToolParams.workflowId params_data) with
   | None =>
       workflow <- await (DbQuery (createWorkflow db
         (CreateWorkflowInput.mk conversationId tool "running"
            (ToolParams.step_number params_data)
            (ToolParams.total_steps params_data)
            (or_null (ToolParams.continuation_id params_data))
            None))) ;;
       Done (Workflow.id workflow)
   | Some workflowId =>
       (* Update existing workflow *)
       await (DbQuery (updateWorkflow db workflowId
         (UpdateWorkflowInput.mk None
            (Some (if ToolParams.next_step_required params_data
                   then "running" else "completed"))
            (Some (ToolParams.step_number params_data))
            (Some (ToolParams.total_steps params_data))
            (Some (or_null (ToolParams.continuation_id params_data)))
            None))) ;;;
       Done workflowId
   end)%handler.

(** [// Save workflow step] (lines 115-130) *)
Definition save_workflow_step (db : IDatabaseAdapter Db) (workflowId : string)
  (params_data : ToolParams.t) : Handler WorkflowStep.t :=
  await (DbQuery (createWorkflowStep db
    (step_input workflowId params_data "running" (pre_call_metadata params_data)))).

(** [// Update workflow step status] (lines 135-151) *)
Definition update_workflow_step_status (db : IDatabaseAdapter Db) (workflowId : string)
  (params_data : ToolParams.t) (response : ExaiResponse.t) : Handler unit :=
  (steps <- await (DbQuery (getWorkflowSteps db workflowId)) ;;
   match find (fun s => WorkflowStep.stepNumber s =? ToolParams.step_number params_data) steps with
   | Some currentStepRecord =>
       await (DbQuery (createWorkflowStep db
         (step_input workflowId params_data "completed"
            (with_response (WorkflowStep.metadata currentStepRecord) response)))) ;;;
       Done tt
   | None => Done tt
   end)%handler.

(** [// If workflow is complete, save final result] (lines 153-159) *)
Definition save_final_result (db : IDatabaseAdapter Db) (workflowId : string)
  (params_data : ToolParams.t) (response : ExaiResponse.t) : Handler unit :=
  (if negb (ToolParams.next_step_required params_data)
   then
     await (DbQuery (updateWorkflow db workflowId
       (UpdateWorkflowInput.mk None (Some "completed") None None None
          (Some (Some response))))) ;;;
     Done tt
   else Done tt)%handler.

(** [// Update conversation timestamp] (lines 161-164); [new Date()] is read
    as the call is issued. *)
Definition update_conversation_timestamp (db : IDatabaseAdapter Db) (conversationId : string)
  : Handler Conversation.t :=
  await (DbQuery (fun now =>
    updateConversation db conversationId
      (UpdateConversationInput.mk None None (Some now)) now)).

(** The [try] block of [POST] (lines 57-170). *)
Definition POST_try (env : Env) (req : Request.t) : Handler NextResponse :=
  (let tool := Request.tool req in
   (* Validate tool name *)
   if negb (includes VALID_TOOLS tool)
   then Done (json (ErrorBody ("Invalid tool: " ++ tool)) 400)
   else
   (* Check authentication *)
   match Request.session_user req with
   | None => Done (json (ErrorBody "Unauthorized") 401)
   | Some userId =>
       body <- request_json req ;;
       params_data <- lift (toolSchema_parse body) ;;
       exai <- lift (AdapterFactory.getExaiAdapter env) ;;
       db <- lift (AdapterFactory.getDatabaseAdapter env) ;;
       conversationId <- create_or_get_conversation db userId tool params_data ;;
       workflowId <- create_or_get_workflow db tool params_data conversationId ;;
       save_workflow_step db workflowId params_data ;;;
       (* Execute tool request *)
       response <- executeTool exai tool params_data ;;
       update_workflow_step_status db workflowId params_data response ;;;
       save_final_result db workflowId params_data response ;;;
       update_conversation_timestamp db conversationId ;;;
       Done (json (ToolResultBody conversationId workflowId response) 200)
   end)%handler.

(** The [catch] clause of [POST] (lines 171-184). *)
Definition POST_catch (error : Thrown) : Handler NextResponse :=
  match error with
  | ZodError issues => Done (json (ValidationErrorBody issues) 400)
  | _ =>
      Done (json (ErrorBody (match instanceof_Error error with
                             | Some e => message e
                             | None => "Internal server error"
                             end)) 500)
  end.

Definition POST (env : Env) (req : Request.t) : Handler NextResponse :=
  try_catch (POST_try env req) POST_catch.

(** ** [SupabaseDatabaseAdapter]: the PostgREST client

    The tables of the Supabase migration, rows in the backend's own
    snake_case columns.  [insert(...).select().single()] stores the row with
    its defaults ([uuid_generate_v4()], [NOW()]) and returns it, or yields the
    error the adapter throws; [update(obj)] serialises [obj] as JSON, so a key
    whose value is [undefined] is not sent and its column is left alone;
    [.single()] is an error when no row matches.  [current_step],
    [total_steps] and [step_number] are [INTEGER]: a value that does not fit
    32 bits is rejected (22003) without a write.

    Ids are kept as the keys of the tables and nothing more.  The id columns
    are of type [UUID]: the ids the database generates are UUIDs, and it
    rejects (22P02) an id or user id that is not one.  Neither is written out
    here, so the operations below say what happens to well-formed ids, and the
    keys stand for them.  Of the migration's tables, only the three the step
    route writes are kept. *)

Module ConversationRow.
Record t := mk {
  id : string;
  title : option string;
  tool_type : string;
  user_id : string;
  created_at : Z;
  updated_at : Z
}.
End ConversationRow.

Module WorkflowRow.
Record t := mk {
  id : string;
  conversation_id : string;
  tool_type : string;
  status : string;
  current_step : Z;
  total_steps : Z;
  continuation_id : option string;
  result : option ExaiResponse.t;
  created_at : Z;
  updated_at : Z
}.
End WorkflowRow.

Module WorkflowStepRow.
Record t := mk {
  id : string;
  workflow_id : string;
  step_number : Z;
  findings : string;
  hypothesis : option string;
  confidence : option string;
  status : string;
  metadata : StepMetadata.t;
  created_at : Z
}.
End WorkflowStepRow.

Record SupabaseDb := mkSupabaseDb {
  exai_conversations : gmap string ConversationRow.t;
  exai_workflows : gmap string WorkflowRow.t;
  exai_workflow_steps : list WorkflowStepRow.t
}.

Fixpoint insert_by_step_number (s : WorkflowStepRow.t) (l : list WorkflowStepRow.t)
  : list WorkflowStepRow.t :=
  match l with
  | [] => [s]
  | x :: r =>
      if WorkflowStepRow.step_number s <=? WorkflowStepRow.step_number x
      then s :: x :: r
      else x :: insert_by_step_number s r
  end.

Module SupabaseDatabaseAdapter.

Definition postgrest_error (code : string) : Thrown :=
  ErrorObj (mkError "PostgrestError" code).

Definition mapConversation (data : ConversationRow.t) : Conversation.t :=
  Conversation.mk (ConversationRow.id data) (ConversationRow.title data)
    (ConversationRow.tool_type data) (ConversationRow.user_id data)
    (ConversationRow.created_at data) (ConversationRow.updated_at data).

Definition mapWorkflow (data : WorkflowRow.t) : Workflow.t :=
  Workflow.mk (WorkflowRow.id data) (WorkflowRow.conversation_id data)
    (WorkflowRow.tool_type data) (WorkflowRow.status data)
    (WorkflowRow.current_step data) (WorkflowRow.total_steps data)
    (WorkflowRow.continuation_id data) (WorkflowRow.result data)
    (WorkflowRow.created_at data) (WorkflowRow.updated_at data).

Definition mapWorkflowStep (data : WorkflowStepRow.t) : WorkflowStep.t :=
  WorkflowStep.mk (WorkflowStepRow.id data) (WorkflowStepRow.workflow_id data)
    (WorkflowStepRow.step_number data) (WorkflowStepRow.findings data)
    (WorkflowStepRow.hypothesis data) (WorkflowStepRow.confidence data)
    (WorkflowStepRow.status data) (WorkflowStepRow.metadata data)
    (WorkflowStepRow.created_at data).

Definition createConversation (data : CreateConversationInput.t)
  : Query SupabaseDb Conversation.t :=
  fun now s =>
    let id := fresh (dom (exai_conversations s)) in
    let conversation := ConversationRow.mk id (CreateConversationInput.title data)
                          (CreateConversationInput.toolType data)
                          (CreateConversationInput.userId data) now now in
    (Fulfilled (mapConversation conversation),
     mkSupabaseDb (<[id := conversation]> (exai_conversations s))
       (exai_workflows s) (exai_workflow_steps s)).

Definition getConversation (id : string) : Query SupabaseDb (option Conversation.t) :=
  fun now s => (Fulfilled (mapConversation <$> exai_conversations s !! id), s).

(** Lines 195-208: the update object has the keys [title] and [updated_at] only. *)
Definition updateConversation (id : string) (data : UpdateConversationInput.t)
  : Query SupabaseDb Conversation.t :=
  fun now s =>
    match exai_conversations s !! id with
    | None => (Rejected (postgrest_error "PGRST116"), s)
    | Some c =>
        let conversation := ConversationRow.mk (ConversationRow.id c)
                              (supplied (UpdateConversationInput.title data) (ConversationRow.title c))
                              (ConversationRow.tool_type c) (ConversationRow.user_id c)
                              (ConversationRow.created_at c) now in
        (Fulfilled (mapConversation conversation),
         mkSupabaseDb (<[id := conversation]> (exai_conversations s))
           (exai_workflows s) (exai_workflow_steps s))
    end.

Definition createWorkflow (data : CreateWorkflowInput.t) : Query SupabaseDb Workflow.t :=
  fun now s =>
    if negb (is_Int32 (CreateWorkflowInput.currentStep data)
             && is_Int32 (CreateWorkflowInput.totalSteps data))
    then (Rejected (postgrest_error "22003"), s)
    else
    match exai_conversations s !! CreateWorkflowInput.conversationId data with
    | None => (Rejected (postgrest_error "23503"), s)
    | Some _ =>
        let id := fresh (dom (exai_workflows s)) in
        let workflow := WorkflowRow.mk id (CreateWorkflowInput.conversationId data)
                          (CreateWorkflowInput.toolType data) (CreateWorkflowInput.status data)
                          (CreateWorkflowInput.currentStep data)
                          (CreateWorkflowInput.totalSteps data)
                          (CreateWorkflowInput.continuationId data)
                          (CreateWorkflowInput.result data) now now in
        (Fulfilled (mapWorkflow workflow),
         mkSupabaseDb (exai_conversations s) (<[id := workflow]> (exai_workflows s))
           (exai_workflow_steps s))
    end.

Definition getWorkflow (id : string) : Query SupabaseDb (option Workflow.t) :=
  fun now s => (Fulfilled (mapWorkflow <$> exai_workflows s !! id), s).

(** Lines 322-339: [tool_type] is not among the keys of the update object. *)
Definition updateWorkflow (id : string) (data : UpdateWorkflowInput.t)
  : Query SupabaseDb Workflow.t :=
  fun now s =>
    if negb (fits_Int32 (UpdateWorkflowInput.currentStep data)
             && fits_Int32 (UpdateWorkflowInput.totalSteps data))
    then (Rejected (postgrest_error "22003"), s)
    else
    match exai_workflows s !! id with
    | None => (Rejected (postgrest_error "PGRST116"), s)
    | Some w =>
        let workflow := WorkflowRow.mk (WorkflowRow.id w) (WorkflowRow.conversation_id w)
                          (WorkflowRow.tool_type w)
                          (supplied (UpdateWorkflowInput.status data) (WorkflowRow.status w))
                          (supplied (UpdateWorkflowInput.currentStep data) (WorkflowRow.current_step w))
                          (supplied (UpdateWorkflowInput.totalSteps data) (WorkflowRow.total_steps w))
                          (supplied (UpdateWorkflowInput.continuationId data)
                             (WorkflowRow.continuation_id w))
                          (supplied (UpdateWorkflowInput.result data) (WorkflowRow.result w))
                          (WorkflowRow.created_at w) now in
        (Fulfilled (mapWorkflow workflow),
         mkSupabaseDb (exai_conversations s) (<[id := workflow]> (exai_workflows s))
           (exai_workflow_steps s))
    end.

Definition createWorkflowStep (data : CreateWorkflowStepInput.t)
  : Query SupabaseDb WorkflowStep.t :=
  fun now s =>
    if negb (is_Int32 (CreateWorkflowStepInput.stepNumber data))
    then (Rejected (postgrest_error "22003"), s)
    else
    match exai_workflows s !! CreateWorkflowStepInput.workflowId data with
    | None => (Rejected (postgrest_error "23503"), s)
    | Some _ =>
        let id := fresh (list_to_set (WorkflowStepRow.id <$> exai_workflow_steps s)
                         : gset string) in
        let step := WorkflowStepRow.mk id (CreateWorkflowStepInput.workflowId data)
                      (CreateWorkflowStepInput.stepNumber data)
                      (CreateWorkflowStepInput.findings data)
                      (CreateWorkflowStepInput.hypothesis data)
                      (CreateWorkflowStepInput.confidence data)
                      (CreateWorkflowStepInput.status data)
                      (CreateWorkflowStepInput.metadata data) now in
        (Fulfilled (mapWorkflowStep step),
         mkSupabaseDb (exai_conversations s) (exai_workflows s)
           (exai_workflow_steps s ++ [step]))
    end.

Definition getWorkflowSteps (workflowId : string) : Query SupabaseDb (list WorkflowStep.t) :=
  fun now s =>
    (Fulfilled (mapWorkflowStep <$>
                  foldr insert_by_step_number []
                    (filter (fun r => WorkflowStepRow.workflow_id r = workflowId)
                       (exai_workflow_steps s))),
     s).

Definition adapter : IDatabaseAdapter SupabaseDb :=
  mkDatabaseAdapter SupabaseDb createConversation getConversation updateConversation
    createWorkflow getWorkflow updateWorkflow createWorkflowStep getWorkflowSteps.

End SupabaseDatabaseAdapter.

(** A fixture is a list of adapter operations applied in order from empty
    tables at a given clock; what is observed is what each operation returns. *)
Inductive ConversationOp :=
| OpCreate (data : CreateConversationInput.t)
| OpGet (id : string)
| OpUpdate (id : string) (data : UpdateConversationInput.t).

Definition apply_op {S : Type} (a : IDatabaseAdapter S) (op : ConversationOp) (now : Z) (s : S)
  : Settled (option Conversation.t) * S :=
  match op with
  | OpCreate data =>
      match createConversation a data now s with
      | (Fulfilled c, s') => (Fulfilled (Some c), s')
      | (Rejected e, s') => (Rejected e, s')
      end
  | OpGet id => getConversation a id now s
  | OpUpdate id data =>
      match updateConversation a id data now s with
      | (Fulfilled c, s') => (Fulfilled (Some c), s')
      | (Rejected e, s') => (Rejected e, s')
      end
  end.

Fixpoint observe {S : Type} (a : IDatabaseAdapter S) (ops : list ConversationOp) (now : Z) (s : S)
  : list (Settled (option Conversation.t)) :=
  match ops with
  | [] => []
  | op :: rest => let '(r, s') := apply_op a op now s in r :: observe a rest now s'
  end.

Definition empty_Db : Db := mkDb ∅ ∅ [].
Definition empty_SupabaseDb : SupabaseDb := mkSupabaseDb ∅ ∅ [].

(** ** Vocabulary of the statements *)


(** Every call a handler can come to await satisfies [P]. *)
Fixpoint AllCalls {A : Type} (P : forall X, Call X -> Prop) (h : Handler A) : Prop :=
  match h with
  | Done _ | Throw _ => True
  | Await c k => P _ c /\ forall r, AllCalls P (k r)
  end.



(** The call keeps the property [I] of the world. *)
Definition keeps (I : World -> Prop) : forall X, Call X -> Prop :=
  fun X c => forall w, I w -> I (snd (exec c w)).


(** The calls [POST] issues for a request whose body parses to [params_data]. *)
Inductive POST_call (tool : string) (params_data : ToolParams.t) : forall X, Call X -> Prop :=
| call_createConversation data :
    POST_call tool params_data _ (DbQuery (LocalDatabaseAdapter.createConversation data))
| call_createWorkflow conversationId :
    truthy (ToolParams.workflowId params_data) = None ->
    POST_call tool params_data _ (DbQuery (LocalDatabaseAdapter.createWorkflow
      (CreateWorkflowInput.mk conversationId tool "running"
         (ToolParams.step_number params_data) (ToolParams.total_steps params_data)
         (or_null (ToolParams.continuation_id params_data)) None)))
| call_updateWorkflow_step workflowId :
    truthy (ToolParams.workflowId params_data) = Some workflowId ->
    POST_call tool params_data _ (DbQuery (LocalDatabaseAdapter.updateWorkflow workflowId
      (UpdateWorkflowInput.mk None
         (Some (if ToolParams.next_step_required params_data then "running" else "completed"))
         (Some (ToolParams.step_number params_data))
         (Some (ToolParams.total_steps params_data))
         (Some (or_null (ToolParams.continuation_id params_data)))
         None)))
| call_updateWorkflow_result workflowId response :
    ToolParams.next_step_required params_data = false ->
    POST_call tool params_data _ (DbQuery (LocalDatabaseAdapter.updateWorkflow workflowId
      (UpdateWorkflowInput.mk None (Some "completed") None None None (Some (Some response)))))
| call_createWorkflowStep data :
    POST_call tool params_data _ (DbQuery (LocalDatabaseAdapter.createWorkflowStep data))
| call_getWorkflowSteps workflowId :
    POST_call tool params_data _ (DbQuery (LocalDatabaseAdapter.getWorkflowSteps workflowId))
| call_updateConversation conversationId :
    POST_call tool params_data _ (DbQuery (fun now =>
      LocalDatabaseAdapter.updateConversation conversationId
        (UpdateConversationInput.mk None None (Some now)) now))
| call_Fetch url timeout :
    POST_call tool params_data _ (Fetch url params_data timeout)
| call_ResponseJson r :
    POST_call tool params_data _ (ResponseJson r).


(** The workflow stored under [workflowId] satisfies [P]. *)
Definition workflow_at (workflowId : string) (P : Workflow.t -> Prop) (w : World) : Prop :=
  exists wf, workflows (db w) !! workflowId = Some wf /\ P wf.

(** The stored step records extend [l]: none was changed or removed. *)
Definition steps_extend (l : list WorkflowStep.t) (w : World) : Prop :=
  exists added, workflowSteps (db w) = (l ++ added)%list.

(** The request passes every check [POST] makes before its first write:
    the tool is known, the caller is signed in as [userId], the body [b] is
    JSON that [toolSchema] parses to [params_data], and the factory resolves
    adapters (the mode is not ['supabase'], for which it throws). *)
Definition accepted (env : Env) (req : Request.t) (userId : string) (b : ToolBody.t)
  (params_data : ToolParams.t) : Prop :=
  includes VALID_TOOLS (Request.tool req) = true /\
  Request.session_user req = Some userId /\
  Request.json req = Some b /\
  toolSchema_parse b = Fulfilled params_data /\
  fst (AdapterFactory.getMode env) = local.

(** The conversation the request names, if it names one, is stored. *)
Definition conversation_stored (params_data : ToolParams.t) (w : World) : Prop :=
  forall cid, truthy (ToolParams.conversationId params_data) = Some cid ->
              is_Some (conversations (db w) !! cid).

(** The workflow the request names, if it names one, is stored. *)
Definition workflow_stored (params_data : ToolParams.t) (w : World) : Prop :=
  forall wid, truthy (ToolParams.workflowId params_data) = Some wid ->
              is_Some (workflows (db w) !! wid).

(** The step numbers of the request fit the [Int] fields they are stored in. *)
Definition steps_fit (params_data : ToolParams.t) : Prop :=
  is_Int32 (ToolParams.step_number params_data) = true /\
  is_Int32 (ToolParams.total_steps params_data) = true.

(** The request gets as far as the adapter call: its step numbers fit, the
    workflow it names is stored and, when it names none, so is the
    conversation under which a workflow is then created (lemmas
    [POST_failure], [POST_success] and [POST_not_called]). *)
Definition adapter_is_called (params_data : ToolParams.t) (w : World) : Prop :=
  steps_fit params_data /\
  workflow_stored params_data w /\
  (truthy (ToolParams.workflowId params_data) = None -> conversation_stored params_data w).

(** The workflow a request works on: the one it names, or one that was not
    stored before. *)
Definition workflow_of_request (params_data : ToolParams.t) (w : World) (wid : string) : Prop :=
  match truthy (ToolParams.workflowId params_data) with
  | Some x => wid = x
  | None => workflows (db w) !! wid = None
  end.

(** ** Concrete requests and worlds *)

Module Examples.

Definition env_unset : Env := mkEnv None None None None.

Definition root_cause : ExaiResponse.t :=
  ExaiResponse.mk "success" (Some "root cause: X") (Some "cont-1") None None None None [].

(** A daemon that answers every request after 10 ms. *)
Definition answering : string -> ToolParams.t -> DaemonReply :=
  fun _ _ => mkReply 10 (Http (mkHttpResponse 200 "OK" 0 (Json root_cause))).

(** A daemon that needs 400 s, past the default timeout of 300 s. *)
Definition hanging : string -> ToolParams.t -> DaemonReply :=
  fun _ _ => mkReply 400000 (Http (mkHttpResponse 200 "OK" 0 (Json root_cause))).

(** No daemon is listening. *)
Definition unreachable : string -> ToolParams.t -> DaemonReply :=
  fun _ _ => mkReply 5 (NetworkFailure "fetch failed").

Definition alices_conversation : Conversation.t :=
  Conversation.mk "c1" (Some "debug - crash on start") "debug" "alice" 100 100.

Definition finished_workflow : Workflow.t :=
  Workflow.mk "w1" "c1" "debug" "completed" 3 3 None (Some root_cause) 100 300.

Definition running_workflow : Workflow.t :=
  Workflow.mk "w1" "c1" "debug" "running" 1 3 None None 100 150.

Definition db_finished : Db :=
  mkDb {[ "c1" := alices_conversation ]} {[ "w1" := finished_workflow ]} [].

Definition db_running : Db :=
  mkDb {[ "c1" := alices_conversation ]} {[ "w1" := running_workflow ]} [].




Definition step_body (n total : Z) (next : bool) (conversationId workflowId : option string)
  : ToolBody.t :=
  ToolBody.mk (Some "inspect the stack trace") (Some n) (Some total) (Some next)
    (Some "null pointer suspected") conversationId workflowId
    None None None None None None None None None None None None None None [].

Definition step_params (n total : Z) (next : bool) (conversationId workflowId : option string)
  : ToolParams.t :=
  ToolParams.mk "inspect the stack trace" n total next
    "null pointer suspected" conversationId workflowId
    None None None None None None None None None None None None None None [].

Definition submit (user : string) (n total : Z) (next : bool)
  (conversationId workflowId : option string) : Request.t :=
  Request.mk "debug" (Some user) (Some (step_body n total next conversationId workflowId)).





Definition slow_local : LocalExaiAdapter.t := LocalExaiAdapter.mk "http://127.0.0.1:8765" 300000.
Definition slow_remote : SupabaseExaiAdapter.t := SupabaseExaiAdapter.new env_unset.

Definition world_finished : World := mkWorld db_finished 1000 answering.
Definition world_running : World := mkWorld db_running 1000 answering.
Definition world_hanging : World := mkWorld db_running 1000 hanging.
Definition world_unreachable : World := mkWorld db_running 1000 unreachable.

(** A conversation is created, its tool type is changed, and it is read back. *)
Definition retype_fixture : list ConversationOp :=
  [OpCreate (CreateConversationInput.mk "alice" "debug" (Some "crash on start"));
   OpUpdate "0" (UpdateConversationInput.mk None (Some "analyze") None);
   OpGet "0"].

End Examples.

(** Unfold one query of the local adapter, leaving map lookups in place. *)
Ltac exec_query :=
  cbn [exec createConversation getConversation updateConversation createWorkflow
       getWorkflow updateWorkflow createWorkflowStep getWorkflowSteps
       LocalDatabaseAdapter.adapter];
  unfold LocalDatabaseAdapter.createConversation, LocalDatabaseAdapter.updateConversation,
    LocalDatabaseAdapter.createWorkflow, LocalDatabaseAdapter.updateWorkflow,
    LocalDatabaseAdapter.createWorkflowStep, LocalDatabaseAdapter.getWorkflowSteps.

(** Split on the range check of a query: the query goes on, or is rejected. *)
Ltac range_check :=
  cbn [UpdateWorkflowInput.currentStep UpdateWorkflowInput.totalSteps
       CreateWorkflowInput.currentStep CreateWorkflowInput.totalSteps
       fits_Int32 andb negb];
  try match goal with
      | |- context [if negb ?b then _ else _] => destruct b eqn:?; cbn [negb]
      end.

(** Pass the range check of a query whose step numbers fit ([H : steps_fit _]). *)
Ltac use_fit H :=
  cbn [UpdateWorkflowInput.currentStep UpdateWorkflowInput.totalSteps
       CreateWorkflowInput.currentStep CreateWorkflowInput.totalSteps
       CreateWorkflowStepInput.stepNumber step_input fits_Int32];
  rewrite ?(proj1 H), ?(proj2 H); cbn [andb negb].

(** * Further vocabulary and operations *)

(** What a stored workflow is for good: everything but the fields a step
    submission writes. *)
Definition same_workflow_identity (wf0 wf : Workflow.t) : Prop :=
  Workflow.id wf = Workflow.id wf0 /\
  Workflow.conversationId wf = Workflow.conversationId wf0 /\
  Workflow.toolType wf = Workflow.toolType wf0 /\
  Workflow.createdAt wf = Workflow.createdAt wf0.

(** Two conversation records that differ at most in [updatedAt]. *)
Definition same_conversation_but_updatedAt (c0 c : Conversation.t) : Prop :=
  Conversation.id c = Conversation.id c0 /\
  Conversation.title c = Conversation.title c0 /\
  Conversation.toolType c = Conversation.toolType c0 /\
  Conversation.userId c = Conversation.userId c0 /\
  Conversation.createdAt c = Conversation.createdAt c0.

(** The conversation stored under [conversationId] satisfies [P]. *)
Definition conversation_at (conversationId : string) (P : Conversation.t -> Prop) (w : World)
  : Prop :=
  exists c, conversations (db w) !! conversationId = Some c /\ P c.

(** Every stored workflow belongs to a stored conversation and every stored
    step record to a stored workflow. *)
Definition references_intact (d : Db) : Prop :=
  (forall wid wf, workflows d !! wid = Some wf ->
                  is_Some (conversations d !! Workflow.conversationId wf)) /\
  (forall s, s ∈ workflowSteps d -> is_Some (workflows d !! WorkflowStep.workflowId s)).

(** Every stored workflow is keyed by its own id. *)
Definition keyed_by_id (d : Db) : Prop :=
  (forall cid c, conversations d !! cid = Some c -> Conversation.id c = cid) /\
  (forall wid wf, workflows d !! wid = Some wf -> Workflow.id wf = wid).

(** [a.stepNumber <= b.stepNumber] *)
Definition stepNumber_le (a b : WorkflowStep.t) : Prop :=
  WorkflowStep.stepNumber a <= WorkflowStep.stepNumber b.

(** The store is well formed: references are intact and records are keyed by
    their ids. *)
Definition well_formed (w : World) : Prop :=
  references_intact (db w) /\ keyed_by_id (db w).

(** The step records are in ascending order of [stepNumber]. *)
Fixpoint ascending_by_stepNumber (l : list WorkflowStep.t) : Prop :=
  match l with
  | [] => True
  | x :: r => Forall (stepNumber_le x) r /\ ascending_by_stepNumber r
  end.

(** ** Fixtures over the whole adapter interface

    One operation of [IDatabaseAdapter] with its arguments, and what it
    resolves to. *)
Inductive DbOp :=
| CreateConversation (data : CreateConversationInput.t)
| GetConversation (id : string)
| UpdateConversation (id : string) (data : UpdateConversationInput.t)
| CreateWorkflow (data : CreateWorkflowInput.t)
| GetWorkflow (id : string)
| UpdateWorkflow (id : string) (data : UpdateWorkflowInput.t)
| CreateWorkflowStep (data : CreateWorkflowStepInput.t)
| GetWorkflowSteps (workflowId : string).

Inductive DbValue :=
| AConversation (c : Conversation.t)
| MaybeConversation (c : option Conversation.t)
| AWorkflow (wf : Workflow.t)
| MaybeWorkflow (wf : option Workflow.t)
| AWorkflowStep (s : WorkflowStep.t)
| WorkflowSteps (l : list WorkflowStep.t).

Definition resolve {X S : Type} (f : X -> DbValue) (r : Settled X * S) : Settled DbValue * S :=
  match r with
  | (Fulfilled x, s) => (Fulfilled (f x), s)
  | (Rejected e, s) => (Rejected e, s)
  end.

Definition apply_DbOp {S : Type} (a : IDatabaseAdapter S) (op : DbOp) (now : Z) (s : S)
  : Settled DbValue * S :=
  match op with
  | CreateConversation data => resolve AConversation (createConversation a data now s)
  | GetConversation id => resolve MaybeConversation (getConversation a id now s)
  | UpdateConversation id data => resolve AConversation (updateConversation a id data now s)
  | CreateWorkflow data => resolve AWorkflow (createWorkflow a data now s)
  | GetWorkflow id => resolve MaybeWorkflow (getWorkflow a id now s)
  | UpdateWorkflow id data => resolve AWorkflow (updateWorkflow a id data now s)
  | CreateWorkflowStep data => resolve AWorkflowStep (createWorkflowStep a data now s)
  | GetWorkflowSteps workflowId => resolve WorkflowSteps (getWorkflowSteps a workflowId now s)
  end.

(** ** The conversation routes ([conversations/route.ts],
    [conversations/[id]/route.ts]) *)

(** Rows ordered by [updatedAt] descending ([orderBy: { updatedAt: 'desc' }]). *)
Fixpoint insert_by_updatedAt_desc (c : Conversation.t) (l : list Conversation.t)
  : list Conversation.t :=
  match l with
  | [] => [c]
  | x :: r =>
      if Conversation.updatedAt x <? Conversation.updatedAt c
      then c :: x :: r
      else x :: insert_by_updatedAt_desc c r
  end.

Definition orderBy_updatedAt_desc (l : list Conversation.t) : list Conversation.t :=
  foldr insert_by_updatedAt_desc [] l.

(** [LocalDatabaseAdapter.getConversations]: [findMany] with [where],
    [orderBy], [skip] and [take].  [limit] and [offset] are non-negative
    integers when given. *)
Definition getConversations (userId : string) (limit offset : option nat)
  (toolType : option string) : Query Db (list Conversation.t) :=
  fun now db =>
    let of_user := filter (fun c => Conversation.userId c = userId)
                     (map_to_list (conversations db)).*2 in
    let rows := match truthy toolType with
                | Some t => filter (fun c => Conversation.toolType c = t) of_user
                | None => of_user
                end in
    let skipped := drop (default 0%nat offset) (orderBy_updatedAt_desc rows) in
    (Fulfilled (match limit with Some n => take n skipped | None => skipped end), db).

(** The JSON bodies the conversation routes read: an object with optional
    string fields. *)
Module ConversationJson.
Record t := mk { title : option string; toolType : option string }.
End ConversationJson.

Module ConversationRequest.
Record t := mk {
  (** [params.id], the route segment *)
  id : string;
  (** [(session.user as any).id], [None] without a session user *)
  session_user : option string;
  (** [await request.json()], [None] when the body is not JSON *)
  json : option ConversationJson.t;
  (** [searchParams]: the integer read from [limit] and from [offset] when the
      parameter is present and not empty, and [toolType] *)
  limit : option nat;
  offset : option nat;
  toolType : option string
}.
End ConversationRequest.

Inductive ConversationBody :=
| ConversationError (error : string)
| ConversationValidationError (details : list string)
| OneConversation (conversation : Conversation.t)
| ManyConversations (conversations : list Conversation.t)
| Success (success : bool).

Record ConversationResponse := conversation_json {
  conversation_body : ConversationBody;
  conversation_status : Z
}.

Definition conversation_request_json (req : ConversationRequest.t)
  : Handler ConversationJson.t :=
  match ConversationRequest.json req with
  | Some b => Done b
  | None => Throw (ErrorObj (mkError "SyntaxError" "Unexpected end of JSON input"))
  end.

(** [updateConversationSchema.parse(body)]: the [title]. *)
Definition updateConversationSchema_parse (b : ConversationJson.t) : Settled (option string) :=
  Fulfilled (ConversationJson.title b).

(** [createConversationSchema.parse(body)]: [title] and [toolType], the
    latter required and not empty. *)
Definition createConversationSchema_parse (b : ConversationJson.t)
  : Settled (option string * string) :=
  match ConversationJson.toolType b with
  | Some toolType =>
      if 1 <=? Z.of_nat (String.length toolType)
      then Fulfilled (ConversationJson.title b, toolType)
      else Rejected (ZodError ["toolType"])
  | None => Rejected (ZodError ["toolType"])
  end.

(** [conversations/[id]/route.ts] *)
Module ConversationById.

Definition GET (env : Env) (req : ConversationRequest.t) : Handler ConversationResponse :=
  try_catch
    (match ConversationRequest.session_user req with
     | None => Done (conversation_json (ConversationError "Unauthorized") 401)
     | Some userId =>
         db <- lift (AdapterFactory.getDatabaseAdapter env) ;;
         conversation <- await (DbQuery (getConversation db (ConversationRequest.id req))) ;;
         match conversation with
         | None => Done (conversation_json (ConversationError "Conversation not found") 404)
         | Some conversation =>
             (* Check ownership *)
             if negb (String.eqb (Conversation.userId conversation) userId)
             then Done (conversation_json (ConversationError "Forbidden") 403)
             else Done (conversation_json (OneConversation conversation) 200)
         end
     end)%handler
    (fun error => Done (conversation_json (ConversationError "Internal server error") 500)).

Definition PUT_catch (error : Thrown) : Handler ConversationResponse :=
  match error with
  | ZodError issues => Done (conversation_json (ConversationValidationError issues) 400)
  | _ => Done (conversation_json (ConversationError "Internal server error") 500)
  end.

Definition PUT (env : Env) (req : ConversationRequest.t) : Handler ConversationResponse :=
  try_catch
    (match ConversationRequest.session_user req with
     | None => Done (conversation_json (ConversationError "Unauthorized") 401)
     | Some userId =>
         db <- lift (AdapterFactory.getDatabaseAdapter env) ;;
         conversation <- await (DbQuery (getConversation db (ConversationRequest.id req))) ;;
         match conversation with
         | None => Done (conversation_json (ConversationError "Conversation not found") 404)
         | Some conversation =>
             (* Check ownership *)
             if negb (String.eqb (Conversation.userId conversation) userId)
             then Done (conversation_json (ConversationError "Forbidden") 403)
             else
               body <- conversation_request_json req ;;
               title <- lift (updateConversationSchema_parse body) ;;
               updatedConversation <- await (DbQuery (updateConversation db
                 (ConversationRequest.id req)
                 (UpdateConversationInput.mk (Some (or_null title)) None None))) ;;
               Done (conversation_json (OneConversation updatedConversation) 200)
         end
     end)%handler
    PUT_catch.

(** [deleteConversation] is [prisma.conversation.delete]; what it does with
    the rows that reference the conversation is the database's business, so
    the route is given for any such query. *)
Definition DELETE (deleteConversation : string -> Query Db unit) (env : Env)
  (req : ConversationRequest.t) : Handler ConversationResponse :=
  try_catch
    (match ConversationRequest.session_user req with
     | None => Done (conversation_json (ConversationError "Unauthorized") 401)
     | Some userId =>
         db <- lift (AdapterFactory.getDatabaseAdapter env) ;;
         conversation <- await (DbQuery (getConversation db (ConversationRequest.id req))) ;;
         match conversation with
         | None => Done (conversation_json (ConversationError "Conversation not found") 404)
         | Some conversation =>
             (* Check ownership *)
             if negb (String.eqb (Conversation.userId conversation) userId)
             then Done (conversation_json (ConversationError "Forbidden") 403)
             else
               await (DbQuery (deleteConversation (ConversationRequest.id req))) ;;;
               Done (conversation_json (Success true) 200)
         end
     end)%handler
    (fun error => Done (conversation_json (ConversationError "Internal server error") 500)).

End ConversationById.

(** [conversations/route.ts] *)
Module Conversations.

Definition GET (env : Env) (req : ConversationRequest.t) : Handler ConversationResponse :=
  try_catch
    (match ConversationRequest.session_user req with
     | None => Done (conversation_json (ConversationError "Unauthorized") 401)
     | Some userId =>
         let limit := default 50%nat (ConversationRequest.limit req) in
         let offset := default 0%nat (ConversationRequest.offset req) in
         let toolType := truthy (ConversationRequest.toolType req) in
         db <- lift (AdapterFactory.getDatabaseAdapter env) ;;
         conversations <- await (DbQuery
           (getConversations userId (Some limit) (Some offset) toolType)) ;;
         Done (conversation_json (ManyConversations conversations) 200)
     end)%handler
    (fun error => Done (conversation_json (ConversationError "Internal server error") 500)).

Definition POST_catch (error : Thrown) : Handler ConversationResponse :=
  match error with
  | ZodError issues => Done (conversation_json (ConversationValidationError issues) 400)
  | _ => Done (conversation_json (ConversationError "Internal server error") 500)
  end.

Definition POST (env : Env) (req : ConversationRequest.t) : Handler ConversationResponse :=
  try_catch
    (match ConversationRequest.session_user req with
     | None => Done (conversation_json (ConversationError "Unauthorized") 401)
     | Some userId =>
         body <- conversation_request_json req ;;
         parsed <- lift (createConversationSchema_parse body) ;;
         let '(title, toolType) := parsed in
         db <- lift (AdapterFactory.getDatabaseAdapter env) ;;
         conversation <- await (DbQuery (createConversation db
           (CreateConversationInput.mk userId toolType (or_null title)))) ;;
         Done (conversation_json (OneConversation conversation) 201)
     end)%handler
    POST_catch.

End Conversations.


(** [conversations/[id]/messages/route.ts].  Messages are not among the
    tables modelled here, so the route is given for any [getMessages] query
    of the adapter. *)
Module ConversationMessages.

Inductive Body (Message : Type) :=
| Error (error : string)
| Messages (messages : list Message).
Arguments Error {Message} error.
Arguments Messages {Message} messages.

Record Response (Message : Type) := json_response {
  response_body : Body Message;
  response_status : Z
}.
Arguments json_response {Message} _ _.
Arguments response_body {Message} _.
Arguments response_status {Message} _.

Definition GET {Message : Type}
  (getMessages : string -> nat -> nat -> Query Db (list Message))
  (env : Env) (req : ConversationRequest.t) : Handler (Response Message) :=
  try_catch
    (match ConversationRequest.session_user req with
     | None => Done (json_response (Error "Unauthorized") 401)
     | Some userId =>
         let limit := default 100%nat (ConversationRequest.limit req) in
         let offset := default 0%nat (ConversationRequest.offset req) in
         db <- lift (AdapterFactory.getDatabaseAdapter env) ;;
         (* Check conversation exists and user owns it *)
         conversation <- await (DbQuery (getConversation db (ConversationRequest.id req))) ;;
         match conversation with
         | None => Done (json_response (Error "Conversation not found") 404)
         | Some conversation =>
             if negb (String.eqb (Conversation.userId conversation) userId)
             then Done (json_response (Error "Forbidden") 403)
             else
               messages <- await (DbQuery
                 (getMessages (ConversationRequest.id req) limit offset)) ;;
               Done (json_response (Messages messages) 200)
         end
     end)%handler
    (fun error => Done (json_response (Error "Internal server error") 500)).

End ConversationMessages.

(** ** [streamResponse]: reassembling the newline-delimited stream

    The loop of [LocalExaiAdapter.streamResponse] (the loop of
    [SupabaseExaiAdapter.streamResponse] is the same), for a response body
    that delivers the decoded texts [reads] one [reader.read()] at a time and
    then ends.  [JSON_parse line] is [JSON.parse(line) as StreamChunk], [None]
    when it throws, and [trim] is [String.prototype.trim]. *)

(** The line feed, ['\n']. *)
Definition newline : Ascii.ascii :=
  Ascii.Ascii false true false true false false false false.

(** [s.split('\n')] *)
Fixpoint split_newline (s : string) : list string :=
  match s with
  | EmptyString => [""]
  | String c s' =>
      if Ascii.eqb c newline
      then "" :: split_newline s'
      else match split_newline s' with
           | [] => [String c ""]
           | x :: r => String c x :: r
           end
  end.

(** [const last = lines.pop() || ''], with what is left in [lines] *)
Definition pop (lines : list string) : list string * string :=
  (removelast lines, default "" (last lines)).

(** The body of the [for] loop, and of the final [if]: a line that is not
    blank is parsed and yielded, unless parsing throws (the error is logged). *)
Definition yield_line {StreamChunk : Type} (JSON_parse : string -> option StreamChunk)
  (trim : string -> string) (line : string) : list StreamChunk :=
  if String.eqb (trim line) "" then []
  else match JSON_parse line with
       | Some chunk => [chunk]
       | None => []
       end.

(** The [while (true)] loop from a given [buffer], and what follows it. *)
Fixpoint read_loop {StreamChunk : Type} (JSON_parse : string -> option StreamChunk)
  (trim : string -> string) (buffer : string) (reads : list string) : list StreamChunk :=
  match reads with
  | [] =>
      (* Process any remaining buffer *)
      yield_line JSON_parse trim buffer
  | value :: reads' =>
      let buffer := buffer ++ value in
      let '(lines, buffer) := pop (split_newline buffer) in
      (flat_map (yield_line JSON_parse trim) lines
         ++ read_loop JSON_parse trim buffer reads')%list
  end.

(** The chunks [streamResponse] yields. *)
Definition streamResponse {StreamChunk : Type} (JSON_parse : string -> option StreamChunk)
  (trim : string -> string) (reads : list string) : list StreamChunk :=
  read_loop JSON_parse trim "" reads.

(** ** Health checks ([health/route.ts], [AdapterFactory.healthCheck])

    [probe url] is what the daemon does with [GET url]; [select_1] is how
    [prisma.$queryRaw`SELECT 1`] settles. *)

(** [LocalExaiAdapter.healthCheck]: [fetch] with [AbortSignal.timeout(5000)]. *)
Definition LocalExaiAdapter_healthCheck (self : LocalExaiAdapter.t)
  (probe : string -> DaemonReply) : bool :=
  let reply := probe (LocalExaiAdapter.daemonUrl self ++ "/health") in
  if 5000 <=? latency reply then false
  else match outcome reply with
       | NetworkFailure _ => false
       | Http response => ok response
       end.

(** [LocalDatabaseAdapter.healthCheck] *)
Definition LocalDatabaseAdapter_healthCheck (select_1 : Settled unit) : bool :=
  match select_1 with
  | Fulfilled _ => true
  | Rejected _ => false
  end.

Record AdapterHealth := mkAdapterHealth {
  health_exai : bool;
  health_database : bool;
  health_mode : AdapterMode
}.

(** [AdapterFactory.healthCheck] *)
Definition AdapterFactory_healthCheck (env : Env) (probe : string -> DaemonReply)
  (select_1 : Settled unit) : Settled AdapterHealth :=
  let mode := fst (AdapterFactory.getMode env) in
  match AdapterFactory.getExaiAdapter env with
  | Rejected e => Rejected e
  | Fulfilled _ =>
      match AdapterFactory.getDatabaseAdapter env with
      | Rejected e => Rejected e
      | Fulfilled _ =>
          let exaiHealth :=
            LocalExaiAdapter_healthCheck
              (LocalExaiAdapter.mk (or_default (EXAI_DAEMON_URL env) "http://127.0.0.1:8765")
                 (default 300000 (EXAI_TIMEOUT env)))
              probe in
          let dbHealth := LocalDatabaseAdapter_healthCheck select_1 in
          Fulfilled (mkAdapterHealth exaiHealth dbHealth mode)
      end
  end.

Inductive HealthBody :=
| HealthReport (status : string) (mode : AdapterMode) (exai database : string)
| HealthError (error : string).

Record HealthResponse := health_json { health_body : HealthBody; health_status : Z }.

(** [GET /api/health] (the [timestamp] of the body is left out). *)
Definition health_GET (env : Env) (probe : string -> DaemonReply) (select_1 : Settled unit)
  : HealthResponse :=
  match AdapterFactory_healthCheck env probe select_1 with
  | Fulfilled health =>
      let status := if health_exai health && health_database health then 200 else 503 in
      health_json
        (HealthReport (if status =? 200 then "healthy" else "unhealthy")
           (health_mode health)
           (if health_exai health then "connected" else "disconnected")
           (if health_database health then "connected" else "disconnected"))
        status
  | Rejected error =>
      health_json
        (HealthError (match instanceof_Error error with
                      | Some e => message e
                      | None => "Unknown error"
                      end))
        500
  end.

(** ** [SupabaseDatabaseAdapter]: deleting

    [delete().eq('id', id)] removes the row with that id, if there is one,
    and is no error if there is none.  The migration declares
    [exai_workflows.conversation_id] and [exai_workflow_steps.workflow_id]
    with [ON DELETE CASCADE], so the rows that reference a removed row go with
    it.  As for the other operations of this adapter, ids are the keys of the
    three tables kept here: that an id which is no UUID is an error, and
    what the delete does to [exai_messages] and [exai_files], is not written
    out. *)
Module SupabaseDeletes.

Definition deleteWorkflowStep (id : string) : Query SupabaseDb unit :=
  fun now s =>
    (Fulfilled tt,
     mkSupabaseDb (exai_conversations s) (exai_workflows s)
       (filter (fun r => WorkflowStepRow.id r <> id) (exai_workflow_steps s))).

Definition deleteWorkflow (id : string) : Query SupabaseDb unit :=
  fun now s =>
    (Fulfilled tt,
     mkSupabaseDb (exai_conversations s) (delete id (exai_workflows s))
       (filter (fun r => WorkflowStepRow.workflow_id r <> id) (exai_workflow_steps s))).

Definition deleteConversation (id : string) : Query SupabaseDb unit :=
  fun now s =>
    let removed := filter (fun kv => WorkflowRow.conversation_id kv.2 = id) (exai_workflows s) in
    (Fulfilled tt,
     mkSupabaseDb (delete id (exai_conversations s))
       (filter (fun kv => WorkflowRow.conversation_id kv.2 <> id) (exai_workflows s))
       (filter (fun r => WorkflowStepRow.workflow_id r ∉ dom removed) (exai_workflow_steps s))).

End SupabaseDeletes.

(** Every workflow row references a stored conversation and every step row a
    stored workflow. *)
Definition foreign_keys_hold (s : SupabaseDb) : Prop :=
  (forall wid wf, exai_workflows s !! wid = Some wf ->
                  is_Some (exai_conversations s !! WorkflowRow.conversation_id wf)) /\
  (forall r, r ∈ exai_workflow_steps s ->
             is_Some (exai_workflows s !! WorkflowStepRow.workflow_id r)).

(** One operation of the Supabase adapter, deletes included. *)
Inductive SupabaseOp :=
| Op (op : DbOp)
| DeleteConversation (id : string)
| DeleteWorkflow (id : string)
| DeleteWorkflowStep (id : string).

Definition apply_SupabaseOp (op : SupabaseOp) (now : Z) (s : SupabaseDb) : SupabaseDb :=
  match op with
  | Op op => snd (apply_DbOp SupabaseDatabaseAdapter.adapter op now s)
  | DeleteConversation id => snd (SupabaseDeletes.deleteConversation id now s)
  | DeleteWorkflow id => snd (SupabaseDeletes.deleteWorkflow id now s)
  | DeleteWorkflowStep id => snd (SupabaseDeletes.deleteWorkflowStep id now s)
  end.

(** Run a conversation route up to its next map lookup. *)
Ltac run_route :=
  cbn [run bind try_catch await lift exec getConversation updateConversation createConversation
       LocalDatabaseAdapter.adapter fst snd];
  unfold LocalDatabaseAdapter.getConversation;
  cbn [run bind try_catch await lift exec fst snd].

(** * Properties *)

(** ** Handlers: running, binding, catching *)

Lemma run_bind {A B : Type} (h : Handler A) (f : A -> Handler B) (w : World) :
  run (bind h f) w =
  match run h w with
  | (Fulfilled a, w') => run (f a) w'
  | (Rejected e, w') => (Rejected e, w')
  end.
Proof.
  revert w. induction h as [a | e | X c k IH]; intros w; cbn; try reflexivity.
  destruct (exec c w) as [r w']. apply IH.
Qed.

Lemma run_try_catch {A : Type} (h : Handler A) (handler : Thrown -> Handler A) (w : World) :
  run (try_catch h handler) w =
  match run h w with
  | (Fulfilled a, w') => (Fulfilled a, w')
  | (Rejected e, w') => run (handler e) w'
  end.
Proof.
  revert w. induction h as [a | e | X c k IH]; intros w; cbn; try reflexivity.
  destruct (exec c w) as [r w']. apply IH.
Qed.

Lemma run_await {X : Type} (c : Call X) (w : World) :
  run (await c) w = exec c w.
Proof. cbn. destruct (exec c w) as [[x | e] w']; reflexivity. Qed.

Lemma AllCalls_impl {A : Type} (P P' : forall X, Call X -> Prop) (h : Handler A) :
  (forall X c, P X c -> P' X c) -> AllCalls P h -> AllCalls P' h.
Proof.
  intros HP. induction h as [a | e | X c k IH]; cbn; auto.
  intros [Hc Hk]. split; auto.
Qed.

Lemma AllCalls_bind {A B : Type} P (h : Handler A) (f : A -> Handler B) :
  AllCalls P h -> (forall a, AllCalls P (f a)) -> AllCalls P (bind h f).
Proof.
  intros Hh Hf. induction h as [a | e | X c k IH]; cbn in *; auto.
  destruct Hh as [Hc Hk]. split; auto.
Qed.

Lemma AllCalls_try_catch {A : Type} P (h : Handler A) handler :
  AllCalls P h -> (forall e, AllCalls P (handler e)) -> AllCalls P (try_catch h handler).
Proof.
  intros Hh Hf. induction h as [a | e | X c k IH]; cbn in *; auto.
  destruct Hh as [Hc Hk]. split; auto.
Qed.

Lemma AllCalls_await {X : Type} P (c : Call X) : P X c -> AllCalls P (await c).
Proof. intros Hc. cbn. split; [exact Hc | intros [x | e]; exact I]. Qed.

Lemma AllCalls_lift {A : Type} P (r : Settled A) : AllCalls P (lift r).
Proof. destruct r; exact I. Qed.




(** ** The calls of [POST] *)

Lemma AllCalls_makeRequest_catch P (e : Thrown) : AllCalls P (makeRequest_catch e).
Proof.
  unfold makeRequest_catch. destruct (instanceof_Error e) as [err |]; [| exact I].
  destruct (String.eqb (name err) "AbortError"); exact I.
Qed.

Lemma AllCalls_local_executeTool P (self : LocalExaiAdapter.t) tool params_data :
  (forall X c, POST_call tool params_data X c -> P X c) ->
  AllCalls P (LocalExaiAdapter.executeTool self tool params_data).
Proof.
  intros HP. unfold LocalExaiAdapter.executeTool, LocalExaiAdapter.makeRequest.
  apply AllCalls_try_catch; [| apply AllCalls_makeRequest_catch].
  apply AllCalls_bind.
  - apply AllCalls_await, HP. constructor.
  - intros response. destruct (negb (ok response)); [exact I |].
    apply AllCalls_bind; [| intros; exact I].
    apply AllCalls_await, HP. constructor.
Qed.

Lemma AllCalls_POST P (env : Env) (req : Request.t) :
  (forall b params_data,
     Request.json req = Some b -> toolSchema_parse b = Fulfilled params_data ->
     forall X c, POST_call (Request.tool req) params_data X c -> P X c) ->
  AllCalls P (POST env req).
Proof.
  intros HP. unfold POST.
  apply AllCalls_try_catch; [| intros [issues | e | v]; exact I].
  unfold POST_try.
  destruct (negb (includes VALID_TOOLS (Request.tool req))); [exact I |].
  destruct (Request.session_user req) as [userId |]; [| exact I].
  unfold request_json. destruct (Request.json req) as [b |] eqn:Hb; [| exact I].
  cbn [bind]. destruct (toolSchema_parse b) as [params_data | e] eqn:Hparse; [| exact I].
  cbn [lift bind]. specialize (HP b params_data eq_refl Hparse).
  unfold AdapterFactory.getExaiAdapter, AdapterFactory.getDatabaseAdapter.
  destruct (fst (AdapterFactory.getMode env)); [| exact I].
  cbn [lift bind].
  apply AllCalls_bind.
  { unfold create_or_get_conversation.
    destruct (truthy (ToolParams.conversationId params_data)); [exact I |].
    apply AllCalls_bind; [| intros; exact I].
    apply AllCalls_await, HP. constructor. }
  intros conversationId. apply AllCalls_bind.
  { unfold create_or_get_workflow.
    destruct (truthy (ToolParams.workflowId params_data)) as [workflowId |] eqn:Hwf.
    - apply AllCalls_bind; [| intros; exact I].
      apply AllCalls_await, HP. cbn. constructor. exact Hwf.
    - apply AllCalls_bind; [| intros; exact I].
      apply AllCalls_await, HP. cbn. constructor. exact Hwf. }
  intros workflowId. apply AllCalls_bind.
  { apply AllCalls_await, HP. cbn. constructor. }
  intros _. apply AllCalls_bind.
  { cbn [executeTool LocalExaiAdapter.adapter]. apply AllCalls_local_executeTool, HP. }
  intros response. apply AllCalls_bind.
  { unfold update_workflow_step_status. apply AllCalls_bind.
    - apply AllCalls_await, HP. cbn. constructor.
    - intros steps. destruct (find _ steps); [| exact I].
      apply AllCalls_bind; [| intros; exact I].
      apply AllCalls_await, HP. cbn. constructor. }
  intros _. apply AllCalls_bind.
  { unfold save_final_result.
    destruct (ToolParams.next_step_required params_data) eqn:Hnext; [exact I |].
    cbn [negb]. apply AllCalls_bind; [| intros; exact I].
    apply AllCalls_await, HP. cbn. constructor. exact Hnext. }
  intros _. apply AllCalls_bind; [| intros; exact I].
  apply AllCalls_await, HP. cbn. constructor.
Qed.


(** ** Invariants along a run and along an interleaving *)

Section Invariants.

Variables I0 I1 : World -> Prop.

Lemma run_keeps {A : Type} (h : Handler A) (w : World) :
  AllCalls (keeps I1) h -> I1 w -> I1 (snd (run h w)).
Proof.
  revert w. induction h as [a | e | X c k IH]; cbn; intros w Hh Hw; auto.
  destruct Hh as [Hc Hk]. specialize (Hc w Hw).
  destruct (exec c w) as [r w']. apply IH; auto.
Qed.

Lemma step_keeps {A : Type} (h : Handler A) (w : World) :
  AllCalls (keeps I1) h -> I1 w ->
  AllCalls (keeps I1) (fst (step h w)) /\ I1 (snd (step h w)).
Proof.
  destruct h as [a | e | X c k]; cbn; intros Hh Hw; auto.
  destruct Hh as [Hc Hk]. specialize (Hc w Hw).
  destruct (exec c w) as [r w']. cbn. auto.
Qed.

Lemma interleave_keeps {A B : Type} (sched : list bool) (h1 : Handler A) (h2 : Handler B)
  (w : World) :
  AllCalls (keeps I1) h1 -> AllCalls (keeps I1) h2 -> I1 w ->
  I1 (snd (interleave sched h1 h2 w)).
Proof.
  revert h1 h2 w. induction sched as [| [|] sched IH]; intros h1 h2 w H1 H2 Hw; cbn.
  - pose proof (run_keeps h1 w H1 Hw) as Hw1.
    destruct (run h1 w) as [r1 w1]. cbn in Hw1.
    pose proof (run_keeps h2 w1 H2 Hw1) as Hw2.
    destruct (run h2 w1) as [r2 w2]. exact Hw2.
  - destruct (step_keeps h1 w H1 Hw) as [H1' Hw'].
    destruct (step h1 w) as [h1' w']. apply IH; auto.
  - destruct (step_keeps h2 w H2 Hw) as [H2' Hw'].
    destruct (step h2 w) as [h2' w']. apply IH; auto.
Qed.



End Invariants.


(** ** The Tool Execution Adapter call *)

Lemma run_local_makeRequest (self : LocalExaiAdapter.t) endpoint params_data w :
  exists t,
    run (LocalExaiAdapter.makeRequest self endpoint params_data) w =
    (fst (run (LocalExaiAdapter.makeRequest self endpoint params_data)
            (mkWorld empty_Db 0 (daemon w))),
     mkWorld (db w) t (daemon w)).
Proof.
  unfold LocalExaiAdapter.makeRequest.
  rewrite !run_try_catch, !run_bind, !run_await. cbn [exec daemon].
  destruct (timer_delay (LocalExaiAdapter.timeout self) <=? _).
  - cbn. eexists; reflexivity.
  - destruct (outcome _) as [msg | r].
    + cbn. eexists; reflexivity.
    + destruct (negb (ok r)) eqn:Hok.
      * cbn. eexists; reflexivity.
      * rewrite !run_bind, !run_await. cbn [exec].
        destruct (http_body r); cbn; eexists; reflexivity.
Qed.


(** ** The blocks of [POST], run one at a time *)


Lemma POST_accepted env req userId b params_data :
  includes VALID_TOOLS (Request.tool req) = true ->
  Request.session_user req = Some userId ->
  Request.json req = Some b ->
  toolSchema_parse b = Fulfilled params_data ->
  fst (AdapterFactory.getMode env) = local ->
  POST env req =
  try_catch
    (let db := LocalDatabaseAdapter.adapter in
     let tool := Request.tool req in
     conversationId <- create_or_get_conversation db userId tool params_data ;;
     workflowId <- create_or_get_workflow db tool params_data conversationId ;;
     save_workflow_step db workflowId params_data ;;;
     response <- LocalExaiAdapter.makeRequest
                   (LocalExaiAdapter.mk
                      (or_default (EXAI_DAEMON_URL env) "http://127.0.0.1:8765")
                      (default 300000 (EXAI_TIMEOUT env)))
                   ("/" ++ tool) params_data ;;
     update_workflow_step_status db workflowId params_data response ;;;
     save_final_result db workflowId params_data response ;;;
     update_conversation_timestamp db conversationId ;;;
     Done (json (ToolResultBody conversationId workflowId response) 200))%handler
    POST_catch.
Proof.
  intros Htool Huser Hjson Hparse Hmode.
  unfold POST, POST_try. rewrite Htool, Huser. cbn [negb].
  unfold request_json. rewrite Hjson. cbn [bind]. rewrite Hparse. cbn [lift bind].
  unfold AdapterFactory.getExaiAdapter, AdapterFactory.getDatabaseAdapter.
  rewrite Hmode. reflexivity.
Qed.

Lemma run_create_or_get_conversation userId tool params_data w :
  exists cid w1,
    run (create_or_get_conversation LocalDatabaseAdapter.adapter userId tool params_data) w
      = (Fulfilled cid, w1) /\
    (conversation_stored params_data w -> is_Some (conversations (db w1) !! cid)) /\
    workflows (db w1) = workflows (db w) /\
    workflowSteps (db w1) = workflowSteps (db w) /\
    daemon w1 = daemon w.
Proof.
  unfold create_or_get_conversation, conversation_stored.
  destruct (truthy (ToolParams.conversationId params_data)) as [cid |].
  - exists cid, w. cbn. auto.
  - rewrite run_bind, run_await. exec_query. cbn [run].
    eexists _, _. split; [reflexivity |]. cbn [db conversations workflows workflowSteps daemon].
    rewrite lookup_insert_eq. eauto.
Qed.

Lemma run_create_or_get_workflow tool params_data cid w :
  steps_fit params_data ->
  (truthy (ToolParams.workflowId params_data) = None ->
   is_Some (conversations (db w) !! cid)) ->
  (forall wid, truthy (ToolParams.workflowId params_data) = Some wid ->
               is_Some (workflows (db w) !! wid)) ->
  exists wid wf w2,
    run (create_or_get_workflow LocalDatabaseAdapter.adapter tool params_data cid) w
      = (Fulfilled wid, w2) /\
    workflows (db w2) = <[wid := wf]> (workflows (db w)) /\
    match truthy (ToolParams.workflowId params_data) with
    | Some x => wid = x /\
                Workflow.status wf = (if ToolParams.next_step_required params_data
                                      then "running" else "completed")
    | None => workflows (db w) !! wid = None /\ Workflow.status wf = "running" /\
              Workflow.conversationId wf = cid
    end /\
    Workflow.currentStep wf = ToolParams.step_number params_data /\
    Workflow.totalSteps wf = ToolParams.total_steps params_data /\
    Workflow.continuationId wf = or_null (ToolParams.continuation_id params_data) /\
    conversations (db w2) = conversations (db w) /\
    workflowSteps (db w2) = workflowSteps (db w) /\
    daemon w2 = daemon w.
Proof.
  intros Hfit Hconv Hwf. unfold create_or_get_workflow.
  destruct (truthy (ToolParams.workflowId params_data)) as [wid |];
    [| destruct (Hconv eq_refl) as [c Hc]].
  - destruct (Hwf wid eq_refl) as [wf0 Hwf0].
    rewrite run_bind, run_await. exec_query. use_fit Hfit. rewrite Hwf0. cbn [run].
    eexists wid, _, _. split; [reflexivity |]. split; [reflexivity |]. cbn. auto 10.
  - rewrite run_bind, run_await. exec_query. use_fit Hfit.
    cbn [CreateWorkflowInput.conversationId].
    rewrite Hc. cbn [run].
    eexists _, _, _. split; [reflexivity |]. split; [reflexivity |].
    cbn [db conversations workflows workflowSteps daemon].
    split; [| cbn; auto 10]. split; [| cbn; auto].
    apply not_elem_of_dom, is_fresh.
Qed.

Lemma run_save_workflow_step wid params_data w :
  steps_fit params_data ->
  is_Some (workflows (db w) !! wid) ->
  exists pre w3,
    run (save_workflow_step LocalDatabaseAdapter.adapter wid params_data) w
      = (Fulfilled pre, w3) /\
    workflowSteps (db w3) = (workflowSteps (db w) ++ [pre])%list /\
    WorkflowStep.workflowId pre = wid /\
    WorkflowStep.stepNumber pre = ToolParams.step_number params_data /\
    WorkflowStep.status pre = "running" /\
    WorkflowStep.findings pre = ToolParams.findings params_data /\
    WorkflowStep.metadata pre = pre_call_metadata params_data /\
    conversations (db w3) = conversations (db w) /\
    workflows (db w3) = workflows (db w) /\
    daemon w3 = daemon w.
Proof.
  intros Hfit [wf Hwf]. unfold save_workflow_step. rewrite run_await. exec_query.
  use_fit Hfit. cbn [step_input CreateWorkflowStepInput.workflowId]. rewrite Hwf.
  eexists _, _. split; [reflexivity |]. cbn. auto 10.
Qed.

Lemma elem_of_insert_by_stepNumber (s x : WorkflowStep.t) (l : list WorkflowStep.t) :
  x ∈ insert_by_stepNumber s l <-> x = s \/ x ∈ l.
Proof.
  induction l as [| y l IH]; cbn.
  - rewrite list_elem_of_singleton, elem_of_nil. tauto.
  - destruct (WorkflowStep.stepNumber s <=? WorkflowStep.stepNumber y).
    + rewrite !elem_of_cons. tauto.
    + rewrite !elem_of_cons, IH. tauto.
Qed.

Lemma elem_of_orderBy_stepNumber (x : WorkflowStep.t) (l : list WorkflowStep.t) :
  x ∈ orderBy_stepNumber l <-> x ∈ l.
Proof.
  unfold orderBy_stepNumber. induction l as [| y l IH]; cbn; [reflexivity |].
  rewrite elem_of_insert_by_stepNumber, IH, elem_of_cons. reflexivity.
Qed.

Lemma find_is_Some {A : Type} (f : A -> bool) (l : list A) (x : A) :
  x ∈ l -> f x = true -> is_Some (find f l).
Proof.
  induction 1 as [x l | x y l Hx IH]; intros Hf; cbn.
  - rewrite Hf. eauto.
  - destruct (f y); eauto.
Qed.

Lemma run_update_workflow_step_status wid params_data response w :
  steps_fit params_data ->
  is_Some (workflows (db w) !! wid) ->
  (exists pre, pre ∈ workflowSteps (db w) /\ WorkflowStep.workflowId pre = wid /\
               WorkflowStep.stepNumber pre = ToolParams.step_number params_data) ->
  exists post w5,
    run (update_workflow_step_status LocalDatabaseAdapter.adapter wid params_data response) w
      = (Fulfilled tt, w5) /\
    workflowSteps (db w5) = (workflowSteps (db w) ++ [post])%list /\
    WorkflowStep.workflowId post = wid /\
    WorkflowStep.stepNumber post = ToolParams.step_number params_data /\
    WorkflowStep.status post = "completed" /\
    WorkflowStep.findings post = ToolParams.findings params_data /\
    StepMetadata.response (WorkflowStep.metadata post) = Some response /\
    conversations (db w5) = conversations (db w) /\
    workflows (db w5) = workflows (db w) /\
    daemon w5 = daemon w.
Proof.
  intros Hfit [wf Hwf] (pre & Hin & Hwid & Hnum).
  unfold update_workflow_step_status. rewrite run_bind, run_await. exec_query.
  cbn [db].
  match goal with |- context [find ?f ?l] =>
    destruct (find_is_Some f l pre) as [rec Hrec] end.
  { apply elem_of_orderBy_stepNumber, list_elem_of_filter. auto. }
  { rewrite Hnum. apply Z.eqb_refl. }
  rewrite Hrec. rewrite run_bind, run_await. exec_query. use_fit Hfit.
  cbn [step_input CreateWorkflowStepInput.workflowId db workflows]. rewrite Hwf.
  eexists _, _. split; [reflexivity |]. cbn. auto 10.
Qed.

Lemma run_save_final_result wid wf params_data response w :
  workflows (db w) !! wid = Some wf ->
  exists wf' w6,
    run (save_final_result LocalDatabaseAdapter.adapter wid params_data response) w
      = (Fulfilled tt, w6) /\
    workflows (db w6) = <[wid := wf']> (workflows (db w)) /\
    Workflow.status wf' = (if ToolParams.next_step_required params_data
                           then Workflow.status wf else "completed") /\
    Workflow.result wf' = (if ToolParams.next_step_required params_data
                           then Workflow.result wf else Some response) /\
    Workflow.currentStep wf' = Workflow.currentStep wf /\
    Workflow.totalSteps wf' = Workflow.totalSteps wf /\
    Workflow.continuationId wf' = Workflow.continuationId wf /\
    Workflow.conversationId wf' = Workflow.conversationId wf /\
    conversations (db w6) = conversations (db w) /\
    workflowSteps (db w6) = workflowSteps (db w) /\
    daemon w6 = daemon w.
Proof.
  intros Hwf. unfold save_final_result.
  destruct (ToolParams.next_step_required params_data); cbn [negb].
  - exists wf, w. cbn. rewrite insert_id by exact Hwf. auto 12.
  - rewrite run_bind, run_await. exec_query.
    cbn [UpdateWorkflowInput.currentStep UpdateWorkflowInput.totalSteps fits_Int32 andb negb].
    rewrite Hwf.
    eexists _, _. split; [reflexivity |]. split; [reflexivity |]. cbn. auto 12.
Qed.

Lemma run_update_conversation_timestamp cid w :
  exists r w7,
    run (update_conversation_timestamp LocalDatabaseAdapter.adapter cid) w = (r, w7) /\
    (is_Some (conversations (db w) !! cid) -> exists c, r = Fulfilled c) /\
    workflows (db w7) = workflows (db w) /\
    workflowSteps (db w7) = workflowSteps (db w) /\
    daemon w7 = daemon w.
Proof.
  unfold update_conversation_timestamp. rewrite run_await. exec_query.
  destruct (conversations (db w) !! cid) as [c |].
  - eexists _, _. split; [reflexivity |]. cbn. eauto.
  - eexists _, _. split; [reflexivity |]. cbn. split; [intros [c Hc]; discriminate | auto].
Qed.

(** ** A whole step submission, on the path where the adapter answers and
    on the path where it throws *)




Lemma steps_fit_dec params_data : steps_fit params_data \/ ~ steps_fit params_data.
Proof.
  unfold steps_fit.
  destruct (is_Int32 (ToolParams.step_number params_data)),
           (is_Int32 (ToolParams.total_steps params_data));
    [left; auto | right; intros [_ H]; discriminate
     | right; intros [H _]; discriminate | right; intros [H _]; discriminate].
Qed.

(** When a step number of the request does not fit, or the workflow the
    request names is not stored, or it names none and the conversation it
    names is not stored, the request is answered 500 by the database error,
    before any step record is stored and before the adapter is called. *)
Lemma POST_not_called env req userId b params_data w :
  includes VALID_TOOLS (Request.tool req) = true ->
  Request.session_user req = Some userId ->
  Request.json req = Some b ->
  toolSchema_parse b = Fulfilled params_data ->
  fst (AdapterFactory.getMode env) = local ->
  ~ adapter_is_called params_data w ->
  exists code w',
    run (POST env req) w = (Fulfilled (json (ErrorBody code) 500), w') /\
    workflows (db w') = workflows (db w) /\
    workflowSteps (db w') = workflowSteps (db w).
Proof.
  intros Htool Huser Hjson Hparse Hmode Hnot.
  rewrite (POST_accepted env req userId b params_data) by assumption.
  rewrite run_try_catch. cbv zeta.
  destruct (run_create_or_get_conversation userId (Request.tool req) params_data w)
    as (cid & w1 & R1 & Hc1 & Hw1 & Hs1 & Hd1).
  rewrite run_bind, R1. rewrite run_bind.
  unfold adapter_is_called, workflow_stored, conversation_stored in Hnot.
  unfold create_or_get_workflow.
  destruct (steps_fit_dec params_data) as [Hfit | Hunfit].
  2: { assert (Hcheck : is_Int32 (ToolParams.step_number params_data)
                        && is_Int32 (ToolParams.total_steps params_data) = false).
       { unfold steps_fit in Hunfit.
         destruct (is_Int32 (ToolParams.step_number params_data)),
                  (is_Int32 (ToolParams.total_steps params_data)); try reflexivity.
         exfalso. apply Hunfit. auto. }
       destruct (truthy (ToolParams.workflowId params_data)) as [wid |];
         rewrite run_bind, run_await; exec_query;
         cbn [UpdateWorkflowInput.currentStep UpdateWorkflowInput.totalSteps
              CreateWorkflowInput.currentStep CreateWorkflowInput.totalSteps fits_Int32];
         rewrite Hcheck; cbn; eexists _, _; (split; [reflexivity |]); auto. }
  destruct (truthy (ToolParams.workflowId params_data)) as [wid |] eqn:Hwid.
  - rewrite run_bind, run_await. exec_query. use_fit Hfit.
    destruct (workflows (db w1) !! wid) as [wf |] eqn:Hlookup.
    + exfalso. apply Hnot. split; [exact Hfit |]. split; [| discriminate].
      intros x [= <-]. rewrite <- Hw1, Hlookup. eauto.
    + cbn. eexists _, _. split; [reflexivity |]. auto.
  - rewrite run_bind, run_await. exec_query. use_fit Hfit.
    cbn [CreateWorkflowInput.conversationId].
    destruct (conversations (db w1) !! cid) as [c |] eqn:Hlookup.
    + exfalso. apply Hnot. split; [exact Hfit |]. split; [discriminate |]. intros _.
      unfold create_or_get_conversation in R1.
      destruct (truthy (ToolParams.conversationId params_data)) as [cid0 |].
      * cbn in R1. injection R1 as -> ->. intros x [= <-]. rewrite Hlookup. eauto.
      * intros x; discriminate.
    + cbn. eexists _, _. split; [reflexivity |]. auto.
Qed.

(** ** What the calls of [POST] keep *)


Lemma POST_call_keeps_steps (l : list WorkflowStep.t) tool params_data :
  forall X c, POST_call tool params_data X c -> keeps (steps_extend l) X c.
Proof.
  intros X c Hc w (added & Hadded). unfold steps_extend.
  destruct Hc; exec_query; range_check; cbn [db workflowSteps]; try solve [cbn; eauto].
  - destruct (conversations (db w) !! _); cbn; eauto.
  - destruct (workflows (db w) !! workflowId); cbn; eauto.
  - destruct (workflows (db w) !! workflowId); cbn; eauto.
  - destruct (workflows (db w) !! CreateWorkflowStepInput.workflowId data); cbn; [| eauto].
    rewrite Hadded, <- app_assoc. eauto.
  - destruct (conversations (db w) !! conversationId); cbn; eauto.
  - destruct (timer_delay timeout <=? _); cbn; eauto.
Qed.


(** * The claims *)

(** ** Adapter factory *)

(** C10.  Whenever [ADAPTER_MODE] is neither exactly ['local'] nor exactly
    ['supabase'] (unset included), [getMode] returns ['local']; it is a total
    function and cannot throw, and both adapters the factory then hands to a
    route are the local ones. *)
Theorem getMode_defaults_to_local (env : Env) :
  ADAPTER_MODE env <> Some "local" ->
  ADAPTER_MODE env <> Some "supabase" ->
  fst (AdapterFactory.getMode env) = local /\
  AdapterFactory.getDatabaseAdapter env = Fulfilled LocalDatabaseAdapter.adapter /\
  exists self, AdapterFactory.getExaiAdapter env = Fulfilled (LocalExaiAdapter.adapter self).
Proof.
  intros Hlocal Hsupabase.
  assert (Hmode : fst (AdapterFactory.getMode env) = local).
  { unfold AdapterFactory.getMode. destruct (ADAPTER_MODE env) as [mode |]; [| reflexivity].
    destruct (String.eqb_spec mode "local") as [-> | _]; [congruence |].
    destruct (String.eqb_spec mode "supabase") as [-> | _]; [congruence | reflexivity]. }
  split; [exact Hmode |].
  unfold AdapterFactory.getDatabaseAdapter, AdapterFactory.getExaiAdapter.
  rewrite Hmode. split; [reflexivity | eexists; reflexivity].
Qed.

Lemma getMode_defaults_to_local_witness :
  fst (AdapterFactory.getMode (mkEnv (Some "Supabase") None None None)) = local /\
  AdapterFactory.getDatabaseAdapter (mkEnv (Some "Supabase") None None None)
    = Fulfilled LocalDatabaseAdapter.adapter /\
  exists self, AdapterFactory.getExaiAdapter (mkEnv (Some "Supabase") None None None)
    = Fulfilled (LocalExaiAdapter.adapter self).
Proof.
  apply (getMode_defaults_to_local (mkEnv (Some "Supabase") None None None)); cbn; congruence.
Defined.

(** ** Tool Execution Adapters *)

Lemma run_remote_makeRequest_timeout (self : SupabaseExaiAdapter.t) endpoint params_data w :
  timer_delay (SupabaseExaiAdapter.timeout self)
    < latency (daemon w (SupabaseExaiAdapter.exaiUrl self ++ endpoint) params_data) ->
  fst (run (SupabaseExaiAdapter.makeRequest self endpoint params_data) w)
    = Rejected (new_Error "EXAI request timeout").
Proof.
  intros Hlate. unfold SupabaseExaiAdapter.makeRequest.
  rewrite run_try_catch, run_bind, run_await. cbn [exec].
  destruct (Z.leb_spec (timer_delay (SupabaseExaiAdapter.timeout self))
              (latency (daemon w (SupabaseExaiAdapter.exaiUrl self ++ endpoint) params_data)));
    [reflexivity | lia].
Qed.

Lemma run_local_makeRequest_timeout (self : LocalExaiAdapter.t) endpoint params_data w :
  timer_delay (LocalExaiAdapter.timeout self)
    < latency (daemon w (LocalExaiAdapter.daemonUrl self ++ endpoint) params_data) ->
  fst (run (LocalExaiAdapter.makeRequest self endpoint params_data) w)
    = Rejected (new_Error "EXAI request timeout").
Proof.
  intros Hlate. unfold LocalExaiAdapter.makeRequest.
  rewrite run_try_catch, run_bind, run_await. cbn [exec].
  destruct (Z.leb_spec (timer_delay (LocalExaiAdapter.timeout self))
              (latency (daemon w (LocalExaiAdapter.daemonUrl self ++ endpoint) params_data)));
    [reflexivity | lia].
Qed.

Lemma remote_makeRequest_rejects (self : SupabaseExaiAdapter.t) endpoint params_data w e :
  fst (run (SupabaseExaiAdapter.makeRequest self endpoint params_data) w) = Rejected e ->
  exists msg, e = new_Error msg /\
    ((timer_delay (SupabaseExaiAdapter.timeout self)
        <=? latency (daemon w (SupabaseExaiAdapter.exaiUrl self ++ endpoint) params_data))
     = false ->
     msg <> "EXAI request timeout").
Proof.
  unfold SupabaseExaiAdapter.makeRequest.
  rewrite !run_try_catch, !run_bind, !run_await. cbn [exec].
  destruct (timer_delay (SupabaseExaiAdapter.timeout self) <=? _).
  - cbn. intros [= <-]. eexists. split; [reflexivity | discriminate].
  - destruct (outcome _) as [msg | r].
    + cbn. intros [= <-]. eexists. split; [reflexivity | discriminate].
    + destruct (negb (ok r)).
      * cbn. intros [= <-]. eexists. split; [reflexivity | discriminate].
      * rewrite !run_bind, !run_await. cbn [exec].
        destruct (http_body r); cbn; [discriminate |]. intros [= <-].
        eexists. split; [reflexivity | discriminate].
Qed.

Lemma local_makeRequest_rejects_failed (self : LocalExaiAdapter.t) endpoint params_data w e :
  fst (run (LocalExaiAdapter.makeRequest self endpoint params_data) w) = Rejected e ->
  exists msg, e = new_Error msg /\
    ((timer_delay (LocalExaiAdapter.timeout self)
        <=? latency (daemon w (LocalExaiAdapter.daemonUrl self ++ endpoint) params_data))
     = false ->
     msg <> "EXAI request timeout").
Proof.
  unfold LocalExaiAdapter.makeRequest.
  rewrite !run_try_catch, !run_bind, !run_await. cbn [exec].
  destruct (timer_delay (LocalExaiAdapter.timeout self) <=? _).
  - cbn. intros [= <-]. eexists. split; [reflexivity | discriminate].
  - destruct (outcome _) as [msg | r].
    + cbn. intros [= <-]. eexists. split; [reflexivity | discriminate].
    + destruct (negb (ok r)).
      * cbn. intros [= <-]. eexists. split; [reflexivity | discriminate].
      * rewrite !run_bind, !run_await. cbn [exec].
        destruct (http_body r); cbn; [discriminate |]. intros [= <-].
        eexists. split; [reflexivity | discriminate].
Qed.

(** Once the response headers have arrived in time with a 2xx status, the
    timer is cleared: the call settles as the reading of the body does,
    however long that takes. *)
Lemma run_remote_makeRequest_in_time (self : SupabaseExaiAdapter.t) endpoint params_data w
  response :
  latency (daemon w (SupabaseExaiAdapter.exaiUrl self ++ endpoint) params_data)
    < timer_delay (SupabaseExaiAdapter.timeout self) ->
  outcome (daemon w (SupabaseExaiAdapter.exaiUrl self ++ endpoint) params_data)
    = Http response ->
  ok response = true ->
  run (SupabaseExaiAdapter.makeRequest self endpoint params_data) w =
  (match http_body response with
   | Json data => Fulfilled data
   | NotJson message => Rejected (new_Error ("EXAI request failed: " ++ message))
   end,
   mkWorld (db w)
     (now w
      + Z.max 0 (latency (daemon w (SupabaseExaiAdapter.exaiUrl self ++ endpoint) params_data))
      + Z.max 0 (body_time response))
     (daemon w)).
Proof.
  intros Hintime Hout Hok. unfold SupabaseExaiAdapter.makeRequest.
  rewrite !run_try_catch, !run_bind, !run_await. cbn [exec].
  destruct (Z.leb_spec (timer_delay (SupabaseExaiAdapter.timeout self))
              (latency (daemon w (SupabaseExaiAdapter.exaiUrl self ++ endpoint) params_data)));
    [lia |].
  rewrite Hout, Hok. cbn [negb]. rewrite !run_bind, !run_await. cbn [exec db now daemon].
  destruct (http_body response); reflexivity.
Qed.

Lemma run_local_makeRequest_in_time (self : LocalExaiAdapter.t) endpoint params_data w
  response :
  latency (daemon w (LocalExaiAdapter.daemonUrl self ++ endpoint) params_data)
    < timer_delay (LocalExaiAdapter.timeout self) ->
  outcome (daemon w (LocalExaiAdapter.daemonUrl self ++ endpoint) params_data)
    = Http response ->
  ok response = true ->
  run (LocalExaiAdapter.makeRequest self endpoint params_data) w =
  (match http_body response with
   | Json data => Fulfilled data
   | NotJson message => Rejected (new_Error ("EXAI request failed: " ++ message))
   end,
   mkWorld (db w)
     (now w
      + Z.max 0 (latency (daemon w (LocalExaiAdapter.daemonUrl self ++ endpoint) params_data))
      + Z.max 0 (body_time response))
     (daemon w)).
Proof.
  intros Hintime Hout Hok. unfold LocalExaiAdapter.makeRequest.
  rewrite !run_try_catch, !run_bind, !run_await. cbn [exec].
  destruct (Z.leb_spec (timer_delay (LocalExaiAdapter.timeout self))
              (latency (daemon w (LocalExaiAdapter.daemonUrl self ++ endpoint) params_data)));
    [lia |].
  rewrite Hout, Hok. cbn [negb]. rewrite !run_bind, !run_await. cbn [exec db now daemon].
  destruct (http_body response); reflexivity.
Qed.

(** C8, as the code has it.  The timer is [setTimeout(abort, timeout)], whose
    delay is the configured timeout, or 1 ms when that is below 1 or above
    2147483647 ([timer_delay]).  When the response headers of the daemon take
    longer than this delay, both adapters throw [new Error('EXAI request
    timeout')].  Its kind is plain [Error], the kind of every failure either
    adapter raises; a timeout is told from the other failures by its message
    alone, which no failure that is not a timeout carries.  The timer covers
    the wait for the response headers only: once they arrive in time with a
    2xx status, the call settles as the reading of the body does, after
    however long that takes, and never as a timeout. *)
Theorem timeout_raises_Error_with_timeout_message
  (local_adapter : LocalExaiAdapter.t) (remote_adapter : SupabaseExaiAdapter.t)
  (endpoint : string) (params_data : ToolParams.t) (w : World) :
  timer_delay (LocalExaiAdapter.timeout local_adapter)
    < latency (daemon w (LocalExaiAdapter.daemonUrl local_adapter ++ endpoint) params_data) ->
  timer_delay (SupabaseExaiAdapter.timeout remote_adapter)
    < latency (daemon w (SupabaseExaiAdapter.exaiUrl remote_adapter ++ endpoint) params_data) ->
  fst (run (LocalExaiAdapter.makeRequest local_adapter endpoint params_data) w)
    = Rejected (ErrorObj (mkError "Error" "EXAI request timeout")) /\
  fst (run (SupabaseExaiAdapter.makeRequest remote_adapter endpoint params_data) w)
    = Rejected (ErrorObj (mkError "Error" "EXAI request timeout")) /\
  (forall w' e,
    (fst (run (LocalExaiAdapter.makeRequest local_adapter endpoint params_data) w') = Rejected e /\
     (timer_delay (LocalExaiAdapter.timeout local_adapter)
        <=? latency (daemon w' (LocalExaiAdapter.daemonUrl local_adapter ++ endpoint) params_data))
     = false) \/
    (fst (run (SupabaseExaiAdapter.makeRequest remote_adapter endpoint params_data) w') = Rejected e /\
     (timer_delay (SupabaseExaiAdapter.timeout remote_adapter)
        <=? latency (daemon w' (SupabaseExaiAdapter.exaiUrl remote_adapter ++ endpoint) params_data))
     = false) ->
    exists msg, e = ErrorObj (mkError "Error" msg) /\ msg <> "EXAI request timeout") /\
  (forall w' response,
    latency (daemon w' (LocalExaiAdapter.daemonUrl local_adapter ++ endpoint) params_data)
      < timer_delay (LocalExaiAdapter.timeout local_adapter) ->
    outcome (daemon w' (LocalExaiAdapter.daemonUrl local_adapter ++ endpoint) params_data)
      = Http response ->
    ok response = true ->
    run (LocalExaiAdapter.makeRequest local_adapter endpoint params_data) w' =
    (match http_body response with
     | Json data => Fulfilled data
     | NotJson message =>
         Rejected (ErrorObj (mkError "Error" ("EXAI request failed: " ++ message)))
     end,
     mkWorld (db w')
       (now w'
        + Z.max 0 (latency (daemon w' (LocalExaiAdapter.daemonUrl local_adapter ++ endpoint)
                              params_data))
        + Z.max 0 (body_time response))
       (daemon w'))) /\
  (forall w' response,
    latency (daemon w' (SupabaseExaiAdapter.exaiUrl remote_adapter ++ endpoint) params_data)
      < timer_delay (SupabaseExaiAdapter.timeout remote_adapter) ->
    outcome (daemon w' (SupabaseExaiAdapter.exaiUrl remote_adapter ++ endpoint) params_data)
      = Http response ->
    ok response = true ->
    run (SupabaseExaiAdapter.makeRequest remote_adapter endpoint params_data) w' =
    (match http_body response with
     | Json data => Fulfilled data
     | NotJson message =>
         Rejected (ErrorObj (mkError "Error" ("EXAI request failed: " ++ message)))
     end,
     mkWorld (db w')
       (now w'
        + Z.max 0 (latency (daemon w' (SupabaseExaiAdapter.exaiUrl remote_adapter ++ endpoint)
                              params_data))
        + Z.max 0 (body_time response))
       (daemon w'))).
Proof.
  intros Hlocal Hremote.
  split; [apply run_local_makeRequest_timeout, Hlocal |].
  split; [apply run_remote_makeRequest_timeout, Hremote |].
  split; [| split].
  - intros w' e [[Hrun Hintime] | [Hrun Hintime]].
    + destruct (local_makeRequest_rejects_failed _ _ _ _ _ Hrun) as (msg & -> & Hmsg). eauto.
    + destruct (remote_makeRequest_rejects _ _ _ _ _ Hrun) as (msg & -> & Hmsg). eauto.
  - intros w' response. apply run_local_makeRequest_in_time.
  - intros w' response. apply run_remote_makeRequest_in_time.
Qed.

Lemma timeout_raises_Error_with_timeout_message_witness :
  timer_delay (LocalExaiAdapter.timeout Examples.slow_local)
    < latency (daemon Examples.world_hanging
                 (LocalExaiAdapter.daemonUrl Examples.slow_local ++ "/debug")
                 (Examples.step_params 1 3 true None None)) /\
  fst (run (LocalExaiAdapter.makeRequest Examples.slow_local "/debug"
              (Examples.step_params 1 3 true None None)) Examples.world_hanging)
    = Rejected (ErrorObj (mkError "Error" "EXAI request timeout")).
Proof.
  split; [vm_compute; reflexivity |].
  apply (timeout_raises_Error_with_timeout_message Examples.slow_local Examples.slow_remote
           "/debug" (Examples.step_params 1 3 true None None) Examples.world_hanging);
    vm_compute; reflexivity.
Defined.

(** C8, as the claim states it, fails: the error thrown on a timeout is not
    of a kind [AdapterTimeoutError]; its kind is [Error], exactly the kind of
    the error thrown when the daemon cannot be reached. *)
Lemma timeout_error_is_a_plain_Error :
  LocalExaiAdapter.timeout Examples.slow_local
    < latency (Examples.hanging
                 (LocalExaiAdapter.daemonUrl Examples.slow_local ++ "/debug")
                 (Examples.step_params 1 3 true None None)) /\
  exists timed_out failed,
    fst (run (LocalExaiAdapter.makeRequest Examples.slow_local "/debug"
                (Examples.step_params 1 3 true None None)) Examples.world_hanging)
      = Rejected (ErrorObj timed_out) /\
    fst (run (SupabaseExaiAdapter.makeRequest Examples.slow_remote "/debug"
                (Examples.step_params 1 3 true None None)) Examples.world_hanging)
      = Rejected (ErrorObj timed_out) /\
    fst (run (LocalExaiAdapter.makeRequest Examples.slow_local "/debug"
                (Examples.step_params 1 3 true None None)) Examples.world_unreachable)
      = Rejected (ErrorObj failed) /\
    name timed_out <> "AdapterTimeoutError" /\
    name timed_out = name failed.
Proof.
  split; [vm_compute; reflexivity |].
  exists (mkError "Error" "EXAI request timeout"),
         (mkError "Error" "EXAI request failed: fetch failed").
  repeat split; try (vm_compute; reflexivity). cbn. discriminate.
Qed.

(** ** The step-submission route *)















(** ** Two submissions in flight against one workflow *)




(** ** Ownership of the conversation *)

(** C2 at its failing inputs.  Conversation ["c1"] belongs to alice; mallory
    submits a step naming it and no workflow: the answer is 200, not 403, and
    a workflow is stored under alice's conversation.  A step naming a
    conversation that does not exist is answered 500 with the database error,
    not 404; when it also names a stored workflow, the workflow has been
    updated and both step records stored by the time the error is raised. *)
Lemma foreign_conversation_is_written :
  Conversation.userId <$> conversations (db Examples.world_running) !! "c1" = Some "alice" /\
  fst (run (POST Examples.env_unset (Examples.submit "mallory" 1 3 true (Some "c1") None))
         Examples.world_running)
    = Fulfilled (json (ToolResultBody "c1" "0" Examples.root_cause) 200) /\
  workflows (db Examples.world_running) !! "0" = None /\
  Workflow.conversationId <$>
    workflows (db (snd (run (POST Examples.env_unset
                               (Examples.submit "mallory" 1 3 true (Some "c1") None))
                          Examples.world_running))) !! "0"
    = Some "c1" /\
  conversations (db Examples.world_running) !! "c9" = None /\
  fst (run (POST Examples.env_unset (Examples.submit "alice" 1 3 true (Some "c9") None))
         Examples.world_running)
    = Fulfilled (json (ErrorBody "P2003") 500) /\
  fst (run (POST Examples.env_unset (Examples.submit "alice" 2 3 true (Some "c9") (Some "w1")))
         Examples.world_running)
    = Fulfilled (json (ErrorBody "P2025") 500) /\
  Workflow.currentStep <$>
    workflows (db (snd (run (POST Examples.env_unset
                               (Examples.submit "alice" 2 3 true (Some "c9") (Some "w1")))
                          Examples.world_running))) !! "w1"
    = Some 2 /\
  length (workflowSteps (db (snd (run (POST Examples.env_unset
                               (Examples.submit "alice" 2 3 true (Some "c9") (Some "w1")))
                          Examples.world_running)))) = 2%nat.
Proof. repeat split; vm_compute; reflexivity. Qed.

(** ** The two Persistence Adapters *)

(** C7 at its failing input.  On the same fixture (create a conversation,
    set its [toolType] to ["analyze"], read it back) the local adapter returns
    the conversation with [toolType = "analyze"] and the Supabase adapter
    returns it with [toolType = "debug"]: its update writes [title] and
    [updated_at] only. *)
Lemma adapters_disagree_on_toolType_update :
  observe LocalDatabaseAdapter.adapter Examples.retype_fixture 1000 empty_Db
    = [Fulfilled (Some (Conversation.mk "0" (Some "crash on start") "debug" "alice" 1000 1000));
       Fulfilled (Some (Conversation.mk "0" (Some "crash on start") "analyze" "alice" 1000 1000));
       Fulfilled (Some (Conversation.mk "0" (Some "crash on start") "analyze" "alice" 1000 1000))] /\
  observe SupabaseDatabaseAdapter.adapter Examples.retype_fixture 1000 empty_SupabaseDb
    = [Fulfilled (Some (Conversation.mk "0" (Some "crash on start") "debug" "alice" 1000 1000));
       Fulfilled (Some (Conversation.mk "0" (Some "crash on start") "debug" "alice" 1000 1000));
       Fulfilled (Some (Conversation.mk "0" (Some "crash on start") "debug" "alice" 1000 1000))] /\
  observe LocalDatabaseAdapter.adapter Examples.retype_fixture 1000 empty_Db
    <> observe SupabaseDatabaseAdapter.adapter Examples.retype_fixture 1000 empty_SupabaseDb.
Proof.
  assert (Hl : observe LocalDatabaseAdapter.adapter Examples.retype_fixture 1000 empty_Db
    = [Fulfilled (Some (Conversation.mk "0" (Some "crash on start") "debug" "alice" 1000 1000));
       Fulfilled (Some (Conversation.mk "0" (Some "crash on start") "analyze" "alice" 1000 1000));
       Fulfilled (Some (Conversation.mk "0" (Some "crash on start") "analyze" "alice" 1000 1000))])
    by (vm_compute; reflexivity).
  assert (Hs : observe SupabaseDatabaseAdapter.adapter Examples.retype_fixture 1000
                 empty_SupabaseDb
    = [Fulfilled (Some (Conversation.mk "0" (Some "crash on start") "debug" "alice" 1000 1000));
       Fulfilled (Some (Conversation.mk "0" (Some "crash on start") "debug" "alice" 1000 1000));
       Fulfilled (Some (Conversation.mk "0" (Some "crash on start") "debug" "alice" 1000 1000))])
    by (vm_compute; reflexivity).
  split; [exact Hl |]. split; [exact Hs |]. rewrite Hl, Hs. discriminate.
Qed.

(** * Further properties of the code *)

(** ** Requests the step route turns away *)

(** X1.  A step submission that fails one of the checks in front of the
    first write (unknown tool, no session user, a body that is not JSON or
    that the schema rejects, a mode for which the factory throws) is answered
    400, 401 or 500, never 200, and leaves the tables, the clock and the
    daemon untouched. *)
Theorem rejected_request_changes_nothing env req w :
  (forall userId b params_data, ~ accepted env req userId b params_data) ->
  exists r,
    run (POST env req) w = (Fulfilled r, w) /\
    (status r = 400 \/ status r = 401 \/ status r = 500).
Proof.
  intros Hnot. unfold POST. rewrite run_try_catch. unfold POST_try.
  destruct (includes VALID_TOOLS (Request.tool req)) eqn:Htool; cbn [negb];
    [| eexists; split; [reflexivity | cbn; auto]].
  destruct (Request.session_user req) as [userId |] eqn:Huser;
    [| eexists; split; [reflexivity | cbn; auto]].
  unfold request_json.
  destruct (Request.json req) as [b |] eqn:Hjson;
    [| eexists; split; [reflexivity | cbn; auto]].
  cbn [bind].
  destruct (toolSchema_parse b) as [params_data | e] eqn:Hparse.
  - cbn [lift bind].
    unfold AdapterFactory.getExaiAdapter, AdapterFactory.getDatabaseAdapter.
    destruct (fst (AdapterFactory.getMode env)) eqn:Hmode.
    + exfalso. apply (Hnot userId b params_data). repeat split; assumption.
    + eexists; split; [reflexivity | cbn; auto].
  - cbn [lift bind run]. destruct e; eexists; (split; [reflexivity | cbn; auto]).
Qed.

Lemma rejected_request_changes_nothing_witness :
  exists r,
    run (POST Examples.env_unset (Request.mk "chat" None None)) Examples.world_running
      = (Fulfilled r, Examples.world_running) /\
    (status r = 400 \/ status r = 401 \/ status r = 500).
Proof.
  apply (rejected_request_changes_nothing Examples.env_unset (Request.mk "chat" None None)
           Examples.world_running).
  intros userId b params_data (Htool & _). vm_compute in Htool. discriminate.
Defined.

(** X2.  The checks come in a fixed order, each with its own answer: an
    unknown tool is 400 ["Invalid tool: ..."] even without a session; a known
    tool without a session user is 401 whatever the body; a body that is not
    JSON is 500; a body the schema rejects is 400 with the list of offending
    keys, which is never empty. *)
Theorem POST_checks_in_order env req w :
  (includes VALID_TOOLS (Request.tool req) = false ->
   fst (run (POST env req) w)
     = Fulfilled (json (ErrorBody ("Invalid tool: " ++ Request.tool req)) 400)) /\
  (includes VALID_TOOLS (Request.tool req) = true ->
   Request.session_user req = None ->
   fst (run (POST env req) w) = Fulfilled (json (ErrorBody "Unauthorized") 401)) /\
  (includes VALID_TOOLS (Request.tool req) = true ->
   is_Some (Request.session_user req) ->
   Request.json req = None ->
   exists msg, fst (run (POST env req) w) = Fulfilled (json (ErrorBody msg) 500)) /\
  (forall b,
   includes VALID_TOOLS (Request.tool req) = true ->
   is_Some (Request.session_user req) ->
   Request.json req = Some b ->
   toolSchema_issues b <> [] ->
   fst (run (POST env req) w)
     = Fulfilled (json (ValidationErrorBody (toolSchema_issues b)) 400)).
Proof.
  unfold POST. rewrite run_try_catch. unfold POST_try, request_json.
  repeat split.
  - intros ->. reflexivity.
  - intros -> ->. reflexivity.
  - intros -> [u ->] ->. cbn. eauto.
  - intros b -> [u ->] -> Hissues. cbn [negb bind].
    assert (Hparse : toolSchema_parse b = Rejected (ZodError (toolSchema_issues b))).
    { unfold toolSchema_parse.
      destruct (ToolBody.step b), (ToolBody.step_number b), (ToolBody.total_steps b),
        (ToolBody.next_step_required b), (ToolBody.findings b); try reflexivity.
      destruct (toolSchema_issues b); [contradiction | reflexivity]. }
    rewrite Hparse. reflexivity.
Qed.

Lemma POST_checks_in_order_witness :
  fst (run (POST Examples.env_unset
              (Request.mk "debug" (Some "alice")
                 (Some (Examples.step_body 0 3 true None None))))
         Examples.world_running)
    = Fulfilled (json (ValidationErrorBody ["step_number"]) 400).
Proof.
  destruct (POST_checks_in_order Examples.env_unset
              (Request.mk "debug" (Some "alice") (Some (Examples.step_body 0 3 true None None)))
              Examples.world_running) as (_ & _ & _ & Hschema).
  apply (Hschema (Examples.step_body 0 3 true None None)).
  - reflexivity.
  - cbn; eauto.
  - reflexivity.
  - vm_compute. discriminate.
Defined.

(** X3.  What [toolSchema] guarantees of the parameters it lets through:
    a non-empty [step], [step_number] and [total_steps] at least 1 (but no
    order between the two), a [confidence] and [thinking_mode] from their
    enumerations and a [temperature] within 0..1 when present; the ids, the
    continuation id and the unknown keys are those of the body, unchanged.  A
    rejection is always a [ZodError] with at least one issue. *)
Theorem toolSchema_parse_guarantees (b : ToolBody.t) :
  match toolSchema_parse b with
  | Fulfilled p =>
      ToolParams.step p <> "" /\
      1 <= ToolParams.step_number p /\
      1 <= ToolParams.total_steps p /\
      (forall c, ToolParams.confidence p = Some c -> includes confidence_enum c = true) /\
      (forall m, ToolParams.thinking_mode p = Some m -> includes thinking_mode_enum m = true) /\
      (forall q, ToolParams.temperature p = Some q -> (0 <= q <= 1)%Q) /\
      ToolBody.step b = Some (ToolParams.step p) /\
      ToolBody.step_number b = Some (ToolParams.step_number p) /\
      ToolBody.total_steps b = Some (ToolParams.total_steps p) /\
      ToolBody.next_step_required b = Some (ToolParams.next_step_required p) /\
      ToolBody.findings b = Some (ToolParams.findings p) /\
      ToolParams.conversationId p = ToolBody.conversationId b /\
      ToolParams.workflowId p = ToolBody.workflowId b /\
      ToolParams.continuation_id p = ToolBody.continuation_id b /\
      ToolParams.passthrough p = ToolBody.passthrough b
  | Rejected e => exists issues, e = ZodError issues /\ issues <> []
  end.
Proof.
  unfold toolSchema_parse.
  destruct (ToolBody.step b) as [s |] eqn:Hs;
    [| eexists; split; [reflexivity | unfold toolSchema_issues; rewrite Hs; discriminate]].
  destruct (ToolBody.step_number b) as [n |] eqn:Hn.
  2: { eexists; split; [reflexivity |]. unfold toolSchema_issues. rewrite Hs, Hn.
       destruct (1 <=? Z.of_nat (String.length s)); discriminate. }
  destruct (ToolBody.total_steps b) as [t |] eqn:Ht.
  2: { eexists; split; [reflexivity |]. unfold toolSchema_issues. rewrite Hs, Hn, Ht.
       destruct (1 <=? Z.of_nat (String.length s)), (1 <=? n); discriminate. }
  destruct (ToolBody.next_step_required b) as [nx |] eqn:Hnx.
  2: { eexists; split; [reflexivity |]. unfold toolSchema_issues. rewrite Hs, Hn, Ht, Hnx.
       destruct (1 <=? Z.of_nat (String.length s)), (1 <=? n), (1 <=? t); discriminate. }
  destruct (ToolBody.findings b) as [f |] eqn:Hf.
  2: { eexists; split; [reflexivity |]. unfold toolSchema_issues. rewrite Hs, Hn, Ht, Hnx, Hf.
       destruct (1 <=? Z.of_nat (String.length s)), (1 <=? n), (1 <=? t); discriminate. }
  destruct (toolSchema_issues b) as [| i issues] eqn:Hissues;
    [| eexists; split; [reflexivity | discriminate]].
  unfold toolSchema_issues in Hissues. rewrite Hs, Hn, Ht, Hnx, Hf in Hissues.
  apply app_eq_nil in Hissues as [Hstep Hissues].
  apply app_eq_nil in Hissues as [Hnum Hissues].
  apply app_eq_nil in Hissues as [Htot Hissues].
  apply app_eq_nil in Hissues as [_ Hissues].
  apply app_eq_nil in Hissues as [_ Hissues].
  apply app_eq_nil in Hissues as [Hconf Hissues].
  apply app_eq_nil in Hissues as [Htemp Hthink].
  cbn [ToolParams.step ToolParams.step_number ToolParams.total_steps ToolParams.confidence
       ToolParams.thinking_mode ToolParams.temperature ToolParams.next_step_required
       ToolParams.findings ToolParams.conversationId ToolParams.workflowId
       ToolParams.continuation_id ToolParams.passthrough].
  split. { intros ->. cbn in Hstep. discriminate. }
  split. { destruct (Z.leb_spec 1 n); [assumption | discriminate]. }
  split. { destruct (Z.leb_spec 1 t); [assumption | discriminate]. }
  split.
  { intros c Hc. rewrite Hc in Hconf.
    destruct (includes confidence_enum c); [reflexivity | discriminate]. }
  split.
  { intros m Hm. rewrite Hm in Hthink.
    destruct (includes thinking_mode_enum m); [reflexivity | discriminate]. }
  split.
  { intros q Hq. rewrite Hq in Htemp.
    destruct (Qle_bool 0 q) eqn:H0; [| discriminate].
    destruct (Qle_bool q 1) eqn:H1; [| discriminate].
    split; apply Qle_bool_iff; assumption. }
  repeat split; reflexivity.
Qed.

Lemma toolSchema_parse_guarantees_witness :
  ToolParams.step (Examples.step_params 1 3 true None None) <> "" /\
  1 <= ToolParams.step_number (Examples.step_params 1 3 true None None).
Proof.
  pose proof (toolSchema_parse_guarantees (Examples.step_body 1 3 true None None)) as H.
  change (toolSchema_parse (Examples.step_body 1 3 true None None))
    with (Fulfilled (Examples.step_params 1 3 true None None)) in H.
  destruct H as (Hstep & Hnumber & _). split; [exact Hstep | exact Hnumber].
Defined.

(** X4.  In mode ['supabase'] the factory throws for both adapters, so every
    step submission that passes the tool, session and schema checks is
    answered 500 with the factory's message and writes nothing. *)
Theorem supabase_mode_answers_500 env req userId b params_data w :
  ADAPTER_MODE env = Some "supabase" ->
  includes VALID_TOOLS (Request.tool req) = true ->
  Request.session_user req = Some userId ->
  Request.json req = Some b ->
  toolSchema_parse b = Fulfilled params_data ->
  AdapterFactory.getExaiAdapter env
    = Rejected (new_Error "Supabase EXAI adapter not yet implemented") /\
  AdapterFactory.getDatabaseAdapter env
    = Rejected (new_Error "Supabase database adapter not yet implemented") /\
  run (POST env req) w
    = (Fulfilled (json (ErrorBody "Supabase EXAI adapter not yet implemented") 500), w).
Proof.
  intros Hmode Htool Huser Hjson Hparse.
  assert (Hget : fst (AdapterFactory.getMode env) = supabase).
  { unfold AdapterFactory.getMode. rewrite Hmode. reflexivity. }
  unfold POST. rewrite run_try_catch. unfold POST_try, request_json.
  rewrite Htool, Huser, Hjson. cbn [negb bind]. rewrite Hparse. cbn [lift bind].
  unfold AdapterFactory.getExaiAdapter, AdapterFactory.getDatabaseAdapter.
  rewrite Hget. repeat split; reflexivity.
Qed.

Lemma supabase_mode_answers_500_witness :
  run (POST (mkEnv (Some "supabase") None None None)
         (Examples.submit "alice" 1 3 true None None)) Examples.world_running
    = (Fulfilled (json (ErrorBody "Supabase EXAI adapter not yet implemented") 500),
       Examples.world_running).
Proof.
  apply (supabase_mode_answers_500 (mkEnv (Some "supabase") None None None)
           (Examples.submit "alice" 1 3 true None None) "alice"
           (Examples.step_body 1 3 true None None)
           (Examples.step_params 1 3 true None None) Examples.world_running);
    reflexivity.
Defined.



(** ** What no step submission changes *)

Lemma POST_call_frames_workflow (W : string) (P : Workflow.t -> Prop) tool params_data :
  (forall wf wf', P wf -> same_workflow_identity wf wf' ->
                  Workflow.result wf' = Workflow.result wf -> P wf') ->
  (ToolParams.next_step_required params_data = false ->
   forall wf wf', P wf -> same_workflow_identity wf wf' -> P wf') ->
  forall X c, POST_call tool params_data X c -> keeps (workflow_at W P) X c.
Proof.
  intros Hstep Hresult X c Hc w (wf & Hwf & HP). unfold workflow_at.
  destruct Hc; exec_query; range_check; cbn [db workflows]; try solve [cbn; eauto].
  - destruct (conversations (db w) !! _); cbn; [| eauto].
    exists wf. split; [| exact HP].
    rewrite lookup_insert_ne; [exact Hwf |].
    intros Heq. pose proof (is_fresh (dom (workflows (db w)))) as Hfresh.
    rewrite Heq in Hfresh. apply Hfresh, elem_of_dom. eauto.
  - destruct (workflows (db w) !! workflowId) as [wf0 |] eqn:Hwf0; cbn; [| eauto].
    destruct (decide (workflowId = W)) as [-> | Hne].
    + rewrite lookup_insert_eq. eexists. split; [reflexivity |].
      rewrite Hwf in Hwf0. injection Hwf0 as <-.
      apply (Hstep wf); [exact HP | repeat split | reflexivity].
    + rewrite lookup_insert_ne by exact Hne. eauto.
  - destruct (workflows (db w) !! workflowId) as [wf0 |] eqn:Hwf0; cbn; [| eauto].
    destruct (decide (workflowId = W)) as [-> | Hne].
    + rewrite lookup_insert_eq. eexists. split; [reflexivity |].
      rewrite Hwf in Hwf0. injection Hwf0 as <-.
      apply (Hresult H wf); [exact HP | repeat split].
    + rewrite lookup_insert_ne by exact Hne. eauto.
  - destruct (workflows (db w) !! CreateWorkflowStepInput.workflowId data); cbn; eauto.
  - destruct (conversations (db w) !! conversationId); cbn; eauto.
  - destruct (timer_delay timeout <=? _); cbn; eauto.
Qed.

Lemma POST_call_frames_conversation (C : string) (P : Conversation.t -> Prop) tool params_data :
  (forall c c', P c -> same_conversation_but_updatedAt c c' -> P c') ->
  forall X call, POST_call tool params_data X call -> keeps (conversation_at C P) X call.
Proof.
  intros Hupd X call Hc w (c & Hlookup & HP). unfold conversation_at.
  destruct Hc; exec_query; range_check; cbn [db conversations]; try solve [cbn; eauto].
  - cbn. exists c. split; [| exact HP].
    rewrite lookup_insert_ne; [exact Hlookup |].
    intros Heq. pose proof (is_fresh (dom (conversations (db w)))) as Hfresh.
    rewrite Heq in Hfresh. apply Hfresh, elem_of_dom. eauto.
  - cbn [CreateWorkflowInput.conversationId].
    destruct (conversations (db w) !! conversationId); cbn; eauto.
  - destruct (workflows (db w) !! workflowId); cbn; eauto.
  - destruct (workflows (db w) !! workflowId); cbn; eauto.
  - destruct (workflows (db w) !! CreateWorkflowStepInput.workflowId data); cbn; eauto.
  - destruct (conversations (db w) !! conversationId) as [c0 |] eqn:Hc0; cbn; [| eauto].
    destruct (decide (conversationId = C)) as [-> | Hne].
    + rewrite lookup_insert_eq. eexists. split; [reflexivity |].
      rewrite Hlookup in Hc0. injection Hc0 as <-.
      apply (Hupd c); [exact HP | repeat split].
    + rewrite lookup_insert_ne by exact Hne. eauto.
  - destruct (timer_delay timeout <=? _); cbn; eauto.
Qed.

(** X6.  Two step submissions in flight, whatever they ask and however their
    calls interleave, never remove a stored workflow or conversation and never
    change what identifies it: a workflow keeps its id, conversation, tool
    type and creation time, and a conversation keeps everything but
    [updatedAt], its owner included. *)
Theorem submissions_keep_identity sched env req1 req2 w :
  (forall W wf0, workflows (db w) !! W = Some wf0 ->
     exists wf,
       workflows (db (snd (interleave sched (POST env req1) (POST env req2) w))) !! W = Some wf /\
       same_workflow_identity wf0 wf) /\
  (forall C c0, conversations (db w) !! C = Some c0 ->
     exists c,
       conversations (db (snd (interleave sched (POST env req1) (POST env req2) w))) !! C
         = Some c /\
       same_conversation_but_updatedAt c0 c).
Proof.
  split.
  - intros W wf0 Hwf0.
    apply (interleave_keeps (workflow_at W (same_workflow_identity wf0))).
    1, 2: apply AllCalls_POST; intros b p _ _ X c Hc;
          eapply POST_call_frames_workflow; [| | exact Hc];
          [intros wf wf' (A1 & A2 & A3 & A4) (B1 & B2 & B3 & B4) _
          | intros _ wf wf' (A1 & A2 & A3 & A4) (B1 & B2 & B3 & B4)];
          repeat split; congruence.
    exists wf0. split; [exact Hwf0 | repeat split].
  - intros C c0 Hc0.
    apply (interleave_keeps (conversation_at C (same_conversation_but_updatedAt c0))).
    1, 2: apply AllCalls_POST; intros b p _ _ X c Hc;
          eapply POST_call_frames_conversation; [| exact Hc];
          intros c1 c2 (A1 & A2 & A3 & A4 & A5) (B1 & B2 & B3 & B4 & B5);
          repeat split; congruence.
    exists c0. split; [exact Hc0 | repeat split].
Qed.

Lemma submissions_keep_identity_witness :
  exists wf,
    workflows (db (snd (interleave [true; false; false; true]
                          (POST Examples.env_unset
                             (Examples.submit "alice" 2 3 true (Some "c1") (Some "w1")))
                          (POST Examples.env_unset
                             (Examples.submit "mallory" 3 3 false (Some "c1") (Some "w1")))
                          Examples.world_running))) !! "w1" = Some wf /\
    same_workflow_identity Examples.running_workflow wf.
Proof.
  apply (proj1 (submissions_keep_identity [true; false; false; true] Examples.env_unset
                  (Examples.submit "alice" 2 3 true (Some "c1") (Some "w1"))
                  (Examples.submit "mallory" 3 3 false (Some "c1") (Some "w1"))
                  Examples.world_running)).
  reflexivity.
Defined.

(** X7.  The append-only history survives concurrency: under every schedule
    of two step submissions the step records stored before are still stored,
    unchanged and in place, with the new records after them. *)
Theorem concurrent_submissions_only_append sched env req1 req2 w :
  exists added,
    workflowSteps (db (snd (interleave sched (POST env req1) (POST env req2) w)))
      = (workflowSteps (db w) ++ added)%list.
Proof.
  apply (interleave_keeps (steps_extend (workflowSteps (db w)))).
  1, 2: apply AllCalls_POST; intros b p _ _ X c Hc;
        eapply POST_call_keeps_steps, Hc.
  exists []. symmetry. apply app_nil_r.
Qed.

(** X8.  A step that requires another step writes no workflow's [result]:
    after a request with [next_step_required = true], whatever its outcome,
    every stored workflow has the result it had. *)
Theorem intermediate_step_keeps_result env req userId b params_data w W wf0 :
  accepted env req userId b params_data ->
  ToolParams.next_step_required params_data = true ->
  workflows (db w) !! W = Some wf0 ->
  exists wf,
    workflows (db (snd (run (POST env req) w))) !! W = Some wf /\
    Workflow.result wf = Workflow.result wf0.
Proof.
  intros (_ & _ & Hjson & Hparse & _) Hnext Hwf0.
  apply (run_keeps (workflow_at W (fun wf => Workflow.result wf = Workflow.result wf0))).
  - apply AllCalls_POST. intros b' p' Hb' Hp' X c Hc.
    rewrite Hjson in Hb'. injection Hb' as <-. rewrite Hparse in Hp'. injection Hp' as <-.
    eapply POST_call_frames_workflow; [| | exact Hc].
    + intros wf wf' H _ E. congruence.
    + rewrite Hnext. discriminate.
  - exists wf0. auto.
Qed.

Lemma intermediate_step_keeps_result_witness :
  exists wf,
    workflows (db (snd (run (POST Examples.env_unset
                               (Examples.submit "alice" 4 4 true (Some "c1") (Some "w1")))
                          Examples.world_finished))) !! "w1" = Some wf /\
    Workflow.result wf = Workflow.result Examples.finished_workflow.
Proof.
  apply (intermediate_step_keeps_result Examples.env_unset
           (Examples.submit "alice" 4 4 true (Some "c1") (Some "w1")) "alice"
           (Examples.step_body 4 4 true (Some "c1") (Some "w1"))
           (Examples.step_params 4 4 true (Some "c1") (Some "w1"))
           Examples.world_finished "w1" Examples.finished_workflow).
  - repeat split; reflexivity.
  - reflexivity.
  - vm_compute; reflexivity.
Defined.

Lemma classic_adapter_is_called params_data w :
  adapter_is_called params_data w \/ ~ adapter_is_called params_data w.
Proof.
  destruct (steps_fit_dec params_data) as [Hfit | Hunfit].
  2: { right. intros [H _]. contradiction. }
  unfold adapter_is_called, workflow_stored, conversation_stored.
  destruct (truthy (ToolParams.workflowId params_data)) as [wid |].
  - destruct (workflows (db w) !! wid) as [wf |] eqn:Hwf.
    + left. split; [exact Hfit |]. split; [intros x [= <-]; eauto | discriminate].
    + right. intros (_ & H & _). destruct (H wid eq_refl) as [wf Hwf']. congruence.
  - destruct (truthy (ToolParams.conversationId params_data)) as [cid |].
    + destruct (conversations (db w) !! cid) as [c |] eqn:Hc.
      * left. split; [exact Hfit |]. split; [discriminate | intros _ x [= <-]; eauto].
      * right. intros (_ & _ & H). destruct (H eq_refl cid eq_refl) as [c Hc']. congruence.
    + left. split; [exact Hfit |]. split; [discriminate | intros _ x; discriminate].
Qed.

(** X9.  A step submission touches one workflow at most: the one it names
    or, when it names none, one that was not stored before.  Every other
    stored workflow is exactly the record it was, whether the adapter call
    succeeds, fails or is never reached. *)
Theorem submission_touches_one_workflow env req userId b params_data w :
  accepted env req userId b params_data ->
  exists wid,
    workflow_of_request params_data w wid /\
    forall W, W <> wid ->
      workflows (db (snd (run (POST env req) w))) !! W = workflows (db w) !! W.
Proof.
  intros (Htool & Huser & Hjson & Hparse & Hmode).
  assert (Hany : exists wid, workflow_of_request params_data w wid).
  { unfold workflow_of_request.
    destruct (truthy (ToolParams.workflowId params_data)) as [x |]; [eauto |].
    exists (fresh (dom (workflows (db w)))). apply not_elem_of_dom, is_fresh. }
  destruct (classic_adapter_is_called params_data w) as [Hcalled | Hnot].
  2: { destruct (POST_not_called env req userId b params_data w)
         as (code & w' & Hrun & Hw & _); try assumption.
       destruct Hany as [wid Hwid]. exists wid. split; [exact Hwid |].
       intros W _. rewrite Hrun. cbn [snd]. rewrite Hw. reflexivity. }
  clear Hany.
  rewrite (POST_accepted env req userId b params_data) by assumption.
  rewrite run_try_catch. cbv zeta. destruct Hcalled as (Hfit & Hwf & Hconv).
  destruct (run_create_or_get_conversation userId (Request.tool req) params_data w)
    as (cid & w1 & R1 & Hc1 & Hw1 & Hs1 & Hd1).
  rewrite run_bind, R1.
  destruct (run_create_or_get_workflow (Request.tool req) params_data cid w1)
    as (wid & wf & w2 & R2 & Hw2 & Horigin & Hcur & Htot & Hcont & Hc2 & Hs2 & Hd2).
  { exact Hfit. }
  { intros Hnone. apply Hc1, Hconv, Hnone. }
  { rewrite Hw1. exact Hwf. }
  rewrite run_bind, R2.
  exists wid. split.
  { unfold workflow_of_request.
    destruct (truthy (ToolParams.workflowId params_data)).
    - apply Horigin.
    - rewrite <- Hw1. apply Horigin. }
  intros W HW.
  destruct (run_save_workflow_step wid params_data w2)
    as (pre & w3 & R3 & Hs3 & Hpw & Hpn & Hpst & Hpf & Hpm & Hc3 & Hw3 & Hd3).
  { exact Hfit. }
  { rewrite Hw2, lookup_insert_eq. eauto. }
  rewrite run_bind, R3.
  assert (H3 : workflows (db w3) !! W = workflows (db w) !! W).
  { rewrite Hw3, Hw2, lookup_insert_ne by congruence. rewrite Hw1. reflexivity. }
  destruct (run_local_makeRequest
              (LocalExaiAdapter.mk (or_default (EXAI_DAEMON_URL env) "http://127.0.0.1:8765")
                 (default 300000 (EXAI_TIMEOUT env)))
              ("/" ++ Request.tool req) params_data w3) as (t & R4).
  rewrite run_bind, R4.
  destruct (fst (run (LocalExaiAdapter.makeRequest _ _ _) _)) as [response | e].
  2: { assert (Hcatch : forall w0, snd (run (POST_catch e) w0) = w0)
         by (intros w0; destruct e; reflexivity).
       rewrite Hcatch. cbn [db]. exact H3. }
  destruct (run_update_workflow_step_status wid params_data response
              (mkWorld (db w3) t (daemon w3)))
    as (post & w5 & R5 & Hs5 & Hqw & Hqn & Hqst & Hqf & Hqm & Hc5 & Hw5 & Hd5).
  { exact Hfit. }
  { cbn [db]. rewrite Hw3, Hw2, lookup_insert_eq. eauto. }
  { exists pre. cbn [db]. rewrite Hs3, elem_of_app, list_elem_of_singleton. auto. }
  rewrite run_bind, R5. cbn [db daemon] in *.
  destruct (run_save_final_result wid wf params_data response w5)
    as (wf' & w6 & R6 & Hw6 & _ & _ & _ & _ & _ & _ & Hc6 & Hs6 & Hd6).
  { rewrite Hw5, Hw3, Hw2. apply lookup_insert_eq. }
  rewrite run_bind, R6.
  destruct (run_update_conversation_timestamp cid w6)
    as (r7 & w7 & R7 & Hr7 & Hw7 & Hs7 & Hd7).
  rewrite run_bind, R7.
  assert (H7 : workflows (db w7) !! W = workflows (db w) !! W).
  { rewrite Hw7, Hw6, lookup_insert_ne by congruence. rewrite Hw5. exact H3. }
  destruct r7 as [c | e7]; cbn [run snd]; [exact H7 |].
  assert (Hcatch : forall w0, snd (run (POST_catch e7) w0) = w0)
    by (intros w0; destruct e7; reflexivity).
  rewrite Hcatch. exact H7.
Qed.

Lemma submission_touches_one_workflow_witness :
  exists wid,
    workflow_of_request (Examples.step_params 2 3 true (Some "c1") (Some "w1"))
      Examples.world_running wid /\
    forall W, W <> wid ->
      workflows (db (snd (run (POST Examples.env_unset
                                 (Examples.submit "alice" 2 3 true (Some "c1") (Some "w1")))
                            Examples.world_running))) !! W
        = workflows (db Examples.world_running) !! W.
Proof.
  apply (submission_touches_one_workflow Examples.env_unset
           (Examples.submit "alice" 2 3 true (Some "c1") (Some "w1")) "alice"
           (Examples.step_body 2 3 true (Some "c1") (Some "w1"))
           (Examples.step_params 2 3 true (Some "c1") (Some "w1"))
           Examples.world_running).
  repeat split; reflexivity.
Defined.



Lemma POST_call_keeps_well_formed tool params_data :
  forall X c, POST_call tool params_data X c -> keeps well_formed X c.
Proof.
  intros X c Hc w [[Hwf Hst] [Hkc Hkw]]. unfold well_formed, references_intact, keyed_by_id.
  destruct Hc; exec_query; range_check; cbn [db conversations workflows workflowSteps];
    try solve [cbn; repeat split; assumption].
  - (* createConversation *)
    cbn [snd db conversations workflows workflowSteps]. repeat split.
    + intros wid wf Hwid. destruct (Hwf wid wf Hwid) as [c Hc].
      destruct (decide (Workflow.conversationId wf = fresh (dom (conversations (db w)))))
        as [-> | Hne].
      * rewrite lookup_insert_eq. eauto.
      * rewrite lookup_insert_ne by congruence. eauto.
    + exact Hst.
    + intros cid c. destruct (decide (cid = fresh (dom (conversations (db w))))) as [-> | Hne].
      * rewrite lookup_insert_eq. intros [= <-]. reflexivity.
      * rewrite lookup_insert_ne by congruence. apply Hkc.
    + exact Hkw.
  - (* createWorkflow *)
    cbn [CreateWorkflowInput.conversationId].
    destruct (conversations (db w) !! conversationId) as [c |] eqn:Hc;
      cbn [snd db conversations workflows workflowSteps]; [| repeat split; assumption].
    repeat split.
    + intros wid wf. destruct (decide (wid = fresh (dom (workflows (db w))))) as [-> | Hne].
      * rewrite lookup_insert_eq. intros [= <-]. cbn. eauto.
      * rewrite lookup_insert_ne by congruence. apply Hwf.
    + intros s Hs. destruct (Hst s Hs) as [wf Hwf'].
      destruct (decide (WorkflowStep.workflowId s = fresh (dom (workflows (db w)))))
        as [-> | Hne].
      * rewrite lookup_insert_eq. eauto.
      * rewrite lookup_insert_ne by congruence. eauto.
    + exact Hkc.
    + intros wid wf. destruct (decide (wid = fresh (dom (workflows (db w))))) as [-> | Hne].
      * rewrite lookup_insert_eq. intros [= <-]. reflexivity.
      * rewrite lookup_insert_ne by congruence. apply Hkw.
  - (* updateWorkflow, pre-call *)
    destruct (workflows (db w) !! workflowId) as [wf0 |] eqn:Hwf0;
      cbn [snd db conversations workflows workflowSteps]; [| repeat split; assumption].
    repeat split.
    + intros wid wf. destruct (decide (wid = workflowId)) as [-> | Hne].
      * rewrite lookup_insert_eq. intros [= <-]. cbn. eapply Hwf, Hwf0.
      * rewrite lookup_insert_ne by congruence. apply Hwf.
    + intros s Hs. destruct (Hst s Hs) as [wf Hwf'].
      destruct (decide (WorkflowStep.workflowId s = workflowId)) as [-> | Hne].
      * rewrite lookup_insert_eq. eauto.
      * rewrite lookup_insert_ne by congruence. eauto.
    + exact Hkc.
    + intros wid wf. destruct (decide (wid = workflowId)) as [-> | Hne].
      * rewrite lookup_insert_eq. intros [= <-]. cbn. eapply Hkw, Hwf0.
      * rewrite lookup_insert_ne by congruence. apply Hkw.
  - (* updateWorkflow, result *)
    destruct (workflows (db w) !! workflowId) as [wf0 |] eqn:Hwf0;
      cbn [snd db conversations workflows workflowSteps]; [| repeat split; assumption].
    repeat split.
    + intros wid wf. destruct (decide (wid = workflowId)) as [-> | Hne].
      * rewrite lookup_insert_eq. intros [= <-]. cbn. eapply Hwf, Hwf0.
      * rewrite lookup_insert_ne by congruence. apply Hwf.
    + intros s Hs. destruct (Hst s Hs) as [wf Hwf'].
      destruct (decide (WorkflowStep.workflowId s = workflowId)) as [-> | Hne].
      * rewrite lookup_insert_eq. eauto.
      * rewrite lookup_insert_ne by congruence. eauto.
    + exact Hkc.
    + intros wid wf. destruct (decide (wid = workflowId)) as [-> | Hne].
      * rewrite lookup_insert_eq. intros [= <-]. cbn. eapply Hkw, Hwf0.
      * rewrite lookup_insert_ne by congruence. apply Hkw.
  - (* createWorkflowStep *)
    destruct (workflows (db w) !! CreateWorkflowStepInput.workflowId data) as [wf0 |] eqn:Hwf0;
      cbn [snd db conversations workflows workflowSteps]; [| repeat split; assumption].
    repeat split; try assumption.
    intros s. rewrite elem_of_app, list_elem_of_singleton. intros [Hs | ->].
    + apply Hst, Hs.
    + cbn. eauto.
  - (* updateConversation *)
    destruct (conversations (db w) !! conversationId) as [c0 |] eqn:Hc0;
      cbn [snd db conversations workflows workflowSteps]; [| repeat split; assumption].
    repeat split; try assumption.
    + intros wid wf Hwid. destruct (Hwf wid wf Hwid) as [c Hc].
      destruct (decide (Workflow.conversationId wf = conversationId)) as [-> | Hne].
      * rewrite lookup_insert_eq. eauto.
      * rewrite lookup_insert_ne by congruence. eauto.
    + intros cid c. destruct (decide (cid = conversationId)) as [-> | Hne].
      * rewrite lookup_insert_eq. intros [= <-]. cbn. eapply Hkc, Hc0.
      * rewrite lookup_insert_ne by congruence. apply Hkc.
  - destruct (timer_delay timeout <=? _); cbn; repeat split; assumption.
Qed.

(** X11.  Step submissions keep the store well formed.  If every stored
    workflow belongs to a stored conversation, every stored step record to a
    stored workflow, and every record is stored under its own id, then the
    same holds after two submissions have run, under every interleaving of
    their calls and whatever each of them answers. *)
Theorem submissions_keep_store_well_formed env (req1 req2 : Request.t) sched w :
  well_formed w ->
  well_formed (snd (interleave sched (POST env req1) (POST env req2) w)).
Proof.
  intros Hw. apply interleave_keeps; [| | exact Hw];
    apply AllCalls_POST; intros b p _ _ X c Hc;
    eapply POST_call_keeps_well_formed, Hc.
Qed.

Lemma submissions_keep_store_well_formed_witness :
  well_formed Examples.world_running /\
  well_formed (snd (interleave [true; false; false; true]
                      (POST Examples.env_unset
                         (Examples.submit "alice" 2 3 true (Some "c1") (Some "w1")))
                      (POST Examples.env_unset
                         (Examples.submit "alice" 3 3 false (Some "c1") (Some "w1")))
                      Examples.world_running)).
Proof.
  assert (H : well_formed Examples.world_running).
  { repeat split.
    - intros wid wf. cbn. rewrite lookup_singleton_Some. intros [<- <-].
      exists Examples.alices_conversation. reflexivity.
    - intros s. cbn. intros Hs. apply elem_of_nil in Hs. destruct Hs.
    - intros cid c. cbn. rewrite lookup_singleton_Some. intros [<- <-]. reflexivity.
    - intros wid wf. cbn. rewrite lookup_singleton_Some. intros [<- <-]. reflexivity. }
  split; [exact H |].
  apply (submissions_keep_store_well_formed Examples.env_unset
           (Examples.submit "alice" 2 3 true (Some "c1") (Some "w1"))
           (Examples.submit "alice" 3 3 false (Some "c1") (Some "w1"))
           [true; false; false; true] Examples.world_running H).
Defined.





(** X13.  What [makeRequest] does with one request.  The timer fires after
    [timer_delay]: the configured timeout, or 1 ms when that is below 1 or
    above 2147483647.  The call resolves exactly when the response headers
    arrive before the timer fires, with a 2xx status, and the body parses as
    JSON, and then to the parsed body; every rejection is a plain [Error]
    whose message is ['EXAI request timeout'] or starts with ['EXAI request
    failed: ']; the database is not touched.  A call that times out takes the
    timer's delay.  A call whose headers arrive in time with a 2xx status
    takes the time to the headers and then the time the body takes, which no
    timer bounds. *)
Theorem makeRequest_outcome (self : LocalExaiAdapter.t) endpoint params_data w :
  let reply := daemon w (LocalExaiAdapter.daemonUrl self ++ endpoint) params_data in
  let r := fst (run (LocalExaiAdapter.makeRequest self endpoint params_data) w) in
  let w' := snd (run (LocalExaiAdapter.makeRequest self endpoint params_data) w) in
  (forall v, r = Fulfilled v <->
             latency reply < timer_delay (LocalExaiAdapter.timeout self) /\
             exists response, outcome reply = Http response /\ ok response = true /\
                              http_body response = Json v) /\
  (forall e, r = Rejected e ->
             exists msg, e = ErrorObj (mkError "Error" msg) /\
               (msg = "EXAI request timeout" \/
                exists detail, msg = "EXAI request failed: " ++ detail)) /\
  db w' = db w /\ daemon w' = daemon w /\
  (timer_delay (LocalExaiAdapter.timeout self) <= latency reply ->
   r = Rejected (ErrorObj (mkError "Error" "EXAI request timeout")) /\
   now w' = now w + timer_delay (LocalExaiAdapter.timeout self)) /\
  (forall response,
     latency reply < timer_delay (LocalExaiAdapter.timeout self) ->
     outcome reply = Http response ->
     ok response = true ->
     now w' = now w + Z.max 0 (latency reply) + Z.max 0 (body_time response)) /\
  now w <= now w'.
Proof.
  cbv zeta.
  assert (Hdelay : 1 <= timer_delay (LocalExaiAdapter.timeout self)).
  { unfold timer_delay.
    destruct (Z.ltb_spec (LocalExaiAdapter.timeout self) 1); cbn [orb]; [lia |].
    destruct (2147483647 <? LocalExaiAdapter.timeout self); lia. }
  unfold LocalExaiAdapter.makeRequest.
  rewrite !run_try_catch, !run_bind, !run_await. cbn [exec].
  destruct (Z.leb_spec (timer_delay (LocalExaiAdapter.timeout self))
              (latency (daemon w (LocalExaiAdapter.daemonUrl self ++ endpoint) params_data)))
    as [Hlate | Hintime];
    [| destruct (outcome _) as [msg | response] eqn:Hout;
       [| destruct (ok response) eqn:Hok; cbn [negb];
          [rewrite !run_bind, !run_await; cbn [exec];
           destruct (http_body response) as [v0 | message] eqn:Hbody |]]];
    cbn; repeat split; try lia; try discriminate;
    try (intros e [= <-]; eauto);
    try (intros (_ & r' & Hr & Hok' & Hb); congruence);
    try (intros r' _ [= <-] _; lia);
    try (intros r' _ [= <-] Hok'; congruence);
    try (intros r' _ [=]; fail).
  all: try match goal with H : Fulfilled _ = Fulfilled _ |- _ => injection H as <- end; eauto.
Qed.

Lemma makeRequest_outcome_witness :
  fst (run (LocalExaiAdapter.makeRequest Examples.slow_local "/debug"
              (Examples.step_params 1 3 true None None)) Examples.world_running)
  = Fulfilled Examples.root_cause.
Proof.
  apply (makeRequest_outcome Examples.slow_local "/debug"
           (Examples.step_params 1 3 true None None) Examples.world_running).
  split; [reflexivity |]. eexists. repeat split; reflexivity.
Defined.

(** X14.  The remote adapter built from an environment without
    [EXAI_CLOUD_URL] behaves as the local adapter the factory hands out:
    the same request against the same world settles the same way and leaves
    the same world. *)
Theorem remote_adapter_behaves_as_local (env : Env) (exai : IExaiAdapter) tool params_data w :
  truthy (EXAI_CLOUD_URL env) = None ->
  AdapterFactory.getExaiAdapter env = Fulfilled exai ->
  run (SupabaseExaiAdapter.executeTool (SupabaseExaiAdapter.new env) tool params_data) w
    = run (executeTool exai tool params_data) w.
Proof.
  intros Hcloud. unfold AdapterFactory.getExaiAdapter.
  destruct (fst (AdapterFactory.getMode env)); [| discriminate].
  intros [= <-]. unfold SupabaseExaiAdapter.new. rewrite Hcloud. reflexivity.
Qed.

Lemma remote_adapter_behaves_as_local_witness :
  run (SupabaseExaiAdapter.executeTool (SupabaseExaiAdapter.new Examples.env_unset)
         "debug" (Examples.step_params 1 3 true None None)) Examples.world_running
    = run (executeTool
             (LocalExaiAdapter.adapter (LocalExaiAdapter.mk "http://127.0.0.1:8765" 300000))
             "debug" (Examples.step_params 1 3 true None None)) Examples.world_running.
Proof.
  apply (remote_adapter_behaves_as_local Examples.env_unset
           (LocalExaiAdapter.adapter (LocalExaiAdapter.mk "http://127.0.0.1:8765" 300000))
           "debug" (Examples.step_params 1 3 true None None) Examples.world_running);
    reflexivity.
Defined.

Lemma insert_by_stepNumber_Permutation (s : WorkflowStep.t) (l : list WorkflowStep.t) :
  insert_by_stepNumber s l ≡ₚ s :: l.
Proof.
  induction l as [| x l IH]; cbn; [reflexivity |].
  destruct (WorkflowStep.stepNumber s <=? WorkflowStep.stepNumber x); [reflexivity |].
  rewrite IH. apply Permutation_swap.
Qed.

Lemma insert_by_stepNumber_ascending (s : WorkflowStep.t) (l : list WorkflowStep.t) :
  ascending_by_stepNumber l -> ascending_by_stepNumber (insert_by_stepNumber s l).
Proof.
  induction l as [| x l IH]; cbn; [auto |]. intros [Hx Hl].
  destruct (Z.leb_spec (WorkflowStep.stepNumber s) (WorkflowStep.stepNumber x)) as [Hlt | Hge].
  - cbn. repeat split; auto. constructor; [unfold stepNumber_le; lia |].
    eapply Forall_impl; [exact Hx |]. unfold stepNumber_le. intros y Hy. lia.
  - cbn. split; [| auto]. rewrite insert_by_stepNumber_Permutation.
    constructor; [unfold stepNumber_le; lia | assumption].
Qed.

(** X15.  [getWorkflowSteps] reads without writing: it resolves to the step
    records of the workflow and no others, each as often as it is stored, in
    ascending order of [stepNumber]; the tables are left as they were. *)
Theorem getWorkflowSteps_sorted_records_of_workflow (workflowId : string) (t : Z) (d : Db) :
  exists steps,
    LocalDatabaseAdapter.getWorkflowSteps workflowId t d = (Fulfilled steps, d) /\
    steps ≡ₚ filter (fun s => WorkflowStep.workflowId s = workflowId) (workflowSteps d) /\
    ascending_by_stepNumber steps.
Proof.
  unfold LocalDatabaseAdapter.getWorkflowSteps. eexists. split; [reflexivity |].
  generalize (filter (fun s => WorkflowStep.workflowId s = workflowId) (workflowSteps d)).
  intros l. unfold orderBy_stepNumber. induction l as [| x l [IHp IHs]]; cbn.
  - split; [reflexivity | exact I].
  - split.
    + rewrite insert_by_stepNumber_Permutation, IHp. reflexivity.
    + apply insert_by_stepNumber_ascending, IHs.
Qed.

Lemma world_eta (w : World) : mkWorld (db w) (now w) (daemon w) = w.
Proof. destruct w; reflexivity. Qed.

Lemma getDatabaseAdapter_local (env : Env) :
  fst (AdapterFactory.getMode env) = local ->
  AdapterFactory.getDatabaseAdapter env = Fulfilled LocalDatabaseAdapter.adapter.
Proof. unfold AdapterFactory.getDatabaseAdapter. intros ->. reflexivity. Qed.

(** X17.  The routes on one conversation check the caller before anything
    else.  [GET], [PUT] and [DELETE] of [conversations/[id]] answer 401
    without a session user, 404 when the conversation is not stored and 403
    when it belongs to somebody else, and leave the world exactly as it was;
    for [DELETE] this holds whatever the database's delete would do. *)
Theorem conversation_routes_check_the_caller
  (deleteConversation : string -> Query Db unit) (env : Env) (req : ConversationRequest.t)
  (h : Handler ConversationResponse) (w : World) :
  h ∈ [ConversationById.GET env req; ConversationById.PUT env req;
       ConversationById.DELETE deleteConversation env req] ->
  (ConversationRequest.session_user req = None ->
   run h w = (Fulfilled (conversation_json (ConversationError "Unauthorized") 401), w)) /\
  (forall userId,
     ConversationRequest.session_user req = Some userId ->
     fst (AdapterFactory.getMode env) = local ->
     (conversations (db w) !! ConversationRequest.id req = None ->
      run h w = (Fulfilled (conversation_json (ConversationError "Conversation not found") 404),
                 w)) /\
     (forall c,
        conversations (db w) !! ConversationRequest.id req = Some c ->
        Conversation.userId c <> userId ->
        run h w = (Fulfilled (conversation_json (ConversationError "Forbidden") 403), w))).
Proof.
  rewrite !elem_of_cons, elem_of_nil.
  intros [-> | [-> | [-> | []]]];
    unfold ConversationById.GET, ConversationById.PUT, ConversationById.DELETE;
    (split; [intros ->; reflexivity |]);
    intros userId -> Hmode; rewrite (getDatabaseAdapter_local env Hmode);
    (split; [intros Hnone | intros c Hc Hother]); run_route;
    rewrite ?Hnone, ?Hc; cbn [run try_catch bind]; rewrite ?world_eta; try reflexivity;
    (destruct (String.eqb_spec (Conversation.userId c) userId) as [Heq | _];
     [contradiction |]); cbn [negb run try_catch bind]; rewrite ?world_eta; reflexivity.
Qed.

Lemma conversation_routes_check_the_caller_witness :
  run (ConversationById.PUT Examples.env_unset
         (ConversationRequest.mk "c1" (Some "mallory")
            (Some (ConversationJson.mk (Some "mine now") None)) None None None))
      Examples.world_running
  = (Fulfilled (conversation_json (ConversationError "Forbidden") 403), Examples.world_running).
Proof.
  refine (proj2 (proj2 (conversation_routes_check_the_caller
            (fun _ _ d => (Fulfilled tt, d)) Examples.env_unset
            (ConversationRequest.mk "c1" (Some "mallory")
               (Some (ConversationJson.mk (Some "mine now") None)) None None None)
            _ Examples.world_running _) "mallory" eq_refl eq_refl)
            Examples.alices_conversation _ _).
  - rewrite !elem_of_cons. right. left. reflexivity.
  - reflexivity.
  - discriminate.
Defined.

(** X18.  [PUT conversations/[id]] changes a conversation only for its
    owner, and then only its title and [updatedAt].  For every request and
    every stored conversation: either the conversation is stored unchanged
    afterwards, or it is the one named by the request, the caller is its
    owner, and the record differs from the old one only in its title, now
    [title || null] of the body, and in [updatedAt], now the current time.
    No conversation is added and no workflow or step record is touched. *)
Theorem conversation_is_renamed_only_by_its_owner (env : Env) (req : ConversationRequest.t)
  (w : World) :
  let w' := snd (run (ConversationById.PUT env req) w) in
  workflows (db w') = workflows (db w) /\
  workflowSteps (db w') = workflowSteps (db w) /\
  (forall cid, conversations (db w) !! cid = None -> conversations (db w') !! cid = None) /\
  (forall cid c,
     conversations (db w) !! cid = Some c ->
     conversations (db w') !! cid = Some c \/
     (cid = ConversationRequest.id req /\
      ConversationRequest.session_user req = Some (Conversation.userId c) /\
      exists b,
        ConversationRequest.json req = Some b /\
        conversations (db w') !! cid
          = Some (Conversation.mk (Conversation.id c) (or_null (ConversationJson.title b))
                    (Conversation.toolType c) (Conversation.userId c)
                    (Conversation.createdAt c) (now w)))).
Proof.
  cbv zeta. unfold ConversationById.PUT.
  destruct (ConversationRequest.session_user req) as [userId |];
    [| cbn; repeat split; auto].
  unfold AdapterFactory.getDatabaseAdapter.
  destruct (fst (AdapterFactory.getMode env)); [| cbn; repeat split; auto].
  run_route.
  destruct (conversations (db w) !! ConversationRequest.id req) as [c0 |] eqn:Hc0;
    [| cbn; repeat split; auto].
  destruct (String.eqb_spec (Conversation.userId c0) userId) as [Heq | Hne];
    cbn [negb]; [| cbn; repeat split; auto].
  unfold conversation_request_json.
  destruct (ConversationRequest.json req) as [b |]; [| cbn; repeat split; auto].
  unfold updateConversationSchema_parse. run_route.
  unfold LocalDatabaseAdapter.updateConversation.
  cbn [db conversations workflows workflowSteps now]. rewrite Hc0.
  cbn [run try_catch bind snd db conversations workflows workflowSteps supplied
       UpdateConversationInput.title UpdateConversationInput.toolType
       UpdateConversationInput.updatedAt].
  repeat split.
  - intros cid Hnone. rewrite lookup_insert_ne by congruence. exact Hnone.
  - intros cid c Hc. destruct (decide (cid = ConversationRequest.id req)) as [-> | Hcid].
    + right. rewrite Hc0 in Hc. injection Hc as ->. subst userId.
      repeat split. exists b. split; [reflexivity |]. apply lookup_insert_eq.
    + left. rewrite lookup_insert_ne by congruence. exact Hc.
Qed.

Lemma conversation_is_renamed_only_by_its_owner_witness :
  conversations (db (snd (run (ConversationById.PUT Examples.env_unset
                                 (ConversationRequest.mk "c1" (Some "alice")
                                    (Some (ConversationJson.mk None None)) None None None))
                            Examples.world_running))) !! "c1"
  = Some (Conversation.mk "c1" None "debug" "alice" 100 1000).
Proof.
  destruct (conversation_is_renamed_only_by_its_owner Examples.env_unset
              (ConversationRequest.mk "c1" (Some "alice")
                 (Some (ConversationJson.mk None None)) None None None)
              Examples.world_running) as (_ & _ & _ & H).
  destruct (H "c1" Examples.alices_conversation eq_refl) as [Hsame | (_ & _ & b & Hb & Hnew)].
  - vm_compute in Hsame. discriminate.
  - injection Hb as <-. exact Hnew.
Defined.












(** X21.  [GET conversations/[id]/messages] hands out messages to the owner
    of the conversation only.  Whatever the adapter's [getMessages] does:
    without a session user the answer is 401, for a conversation that is not
    stored 404, for somebody else's conversation 403, and in these cases the
    world is left exactly as it was (the messages are not even queried); for
    the owner the answer is what [getMessages] resolves to for this
    conversation, with [limit] 100 and [offset] 0 unless the request says
    otherwise, and 500 when it rejects. *)
Theorem messages_are_read_by_the_owner_only {Message : Type}
  (getMessages : string -> nat -> nat -> Query Db (list Message))
  (env : Env) (req : ConversationRequest.t) (w : World) :
  (ConversationRequest.session_user req = None ->
   run (ConversationMessages.GET getMessages env req) w
     = (Fulfilled (ConversationMessages.json_response
                     (ConversationMessages.Error "Unauthorized") 401), w)) /\
  (forall userId,
     ConversationRequest.session_user req = Some userId ->
     fst (AdapterFactory.getMode env) = local ->
     (conversations (db w) !! ConversationRequest.id req = None ->
      run (ConversationMessages.GET getMessages env req) w
        = (Fulfilled (ConversationMessages.json_response
                        (ConversationMessages.Error "Conversation not found") 404), w)) /\
     (forall c,
        conversations (db w) !! ConversationRequest.id req = Some c ->
        (Conversation.userId c <> userId ->
         run (ConversationMessages.GET getMessages env req) w
           = (Fulfilled (ConversationMessages.json_response
                           (ConversationMessages.Error "Forbidden") 403), w)) /\
        (Conversation.userId c = userId ->
         run (ConversationMessages.GET getMessages env req) w
           = match getMessages (ConversationRequest.id req)
                     (default 100%nat (ConversationRequest.limit req))
                     (default 0%nat (ConversationRequest.offset req)) (now w) (db w) with
             | (Fulfilled messages, d) =>
                 (Fulfilled (ConversationMessages.json_response
                               (ConversationMessages.Messages messages) 200),
                  mkWorld d (now w) (daemon w))
             | (Rejected _, d) =>
                 (Fulfilled (ConversationMessages.json_response
                               (ConversationMessages.Error "Internal server error") 500),
                  mkWorld d (now w) (daemon w))
             end))).
Proof.
  unfold ConversationMessages.GET.
  split; [intros ->; reflexivity |].
  intros userId -> Hmode. rewrite (getDatabaseAdapter_local env Hmode). cbv zeta.
  split; [intros Hnone | intros c Hc; split; [intros Hother | intros Hown]]; run_route;
    rewrite ?Hnone, ?Hc; cbn [run try_catch bind]; rewrite ?world_eta; try reflexivity.
  - destruct (String.eqb_spec (Conversation.userId c) userId) as [Heq | _]; [contradiction |].
    cbn [negb run try_catch bind]. rewrite ?world_eta. reflexivity.
  - destruct (String.eqb_spec (Conversation.userId c) userId) as [_ | Hne]; [| contradiction].
    cbn [negb run try_catch bind await exec db now daemon].
    destruct (getMessages _ _ _ _ _) as [[messages | e] d]; reflexivity.
Qed.

Lemma messages_are_read_by_the_owner_only_witness :
  run (ConversationMessages.GET (fun _ _ _ _ d => (Fulfilled ["hello"], d))
         Examples.env_unset
         (ConversationRequest.mk "c1" (Some "mallory") None None None None))
      Examples.world_running
  = (Fulfilled (ConversationMessages.json_response
                  (ConversationMessages.Error "Forbidden") 403), Examples.world_running).
Proof.
  refine (proj1 (proj2 (proj2 (messages_are_read_by_the_owner_only
            (fun _ _ _ _ d => (Fulfilled ["hello"], d)) Examples.env_unset
            (ConversationRequest.mk "c1" (Some "mallory") None None None None)
            Examples.world_running) "mallory" eq_refl eq_refl)
            Examples.alices_conversation eq_refl) _).
  discriminate.
Defined.

Lemma append_String (c : Ascii.ascii) (s t : string) : String c s ++ t = String c (s ++ t).
Proof. reflexivity. Qed.

Lemma append_empty_l (t : string) : "" ++ t = t.
Proof. reflexivity. Qed.

Lemma append_empty_r (s : string) : s ++ "" = s.
Proof. induction s as [| c s IH]; [reflexivity | rewrite append_String, IH; reflexivity]. Qed.

Lemma append_append (s t u : string) : (s ++ t) ++ u = s ++ (t ++ u).
Proof.
  induction s as [| c s IH]; [reflexivity | rewrite !append_String, IH; reflexivity].
Qed.

Lemma split_newline_not_nil (s : string) : split_newline s <> [].
Proof.
  destruct s as [| c s]; cbn; [discriminate |].
  destruct (Ascii.eqb c newline); [discriminate |].
  destruct (split_newline s); discriminate.
Qed.

Lemma split_newline_app (s t : string) :
  split_newline (s ++ t)
  = (removelast (split_newline s)
       ++ split_newline (default "" (last (split_newline s)) ++ t))%list.
Proof.
  induction s as [| c s IH]; [reflexivity |].
  rewrite append_String. cbn [split_newline]. rewrite IH.
  pose proof (split_newline_not_nil s) as Hs.
  destruct (Ascii.eqb c newline) eqn:Hc.
  - destruct (split_newline s) as [| x r]; [contradiction |]. reflexivity.
  - destruct (split_newline s) as [| x [| y r]]; [contradiction | |].
    + cbn. rewrite append_String. cbn [split_newline]. rewrite Hc. reflexivity.
    + reflexivity.
Qed.

(** The last piece of a split holds no newline: splitting it again gives it
    back. *)
Lemma split_newline_last (s : string) :
  split_newline (default "" (last (split_newline s)))
  = [default "" (last (split_newline s))].
Proof.
  induction s as [| c s IH]; [reflexivity |].
  cbn [split_newline]. pose proof (split_newline_not_nil s) as Hs.
  destruct (Ascii.eqb c newline) eqn:Hc.
  - destruct (split_newline s) as [| x r]; [contradiction |]. exact IH.
  - destruct (split_newline s) as [| x [| y r]]; [contradiction | |].
    + cbn in *. rewrite Hc, IH. reflexivity.
    + exact IH.
Qed.

Lemma read_loop_whole_text {StreamChunk : Type} (JSON_parse : string -> option StreamChunk)
  (trim : string -> string) (reads : list string) (buffer : string) :
  split_newline buffer = [buffer] ->
  read_loop JSON_parse trim buffer reads
  = flat_map (yield_line JSON_parse trim) (split_newline (buffer ++ String.concat "" reads)).
Proof.
  revert buffer. induction reads as [| value reads IH]; intros buffer Hbuffer.
  - cbn [read_loop String.concat]. rewrite append_empty_r, Hbuffer.
    cbn. rewrite app_nil_r. reflexivity.
  - cbn [read_loop]. unfold pop.
    rewrite IH by apply split_newline_last.
    replace (String.concat "" (value :: reads)) with (value ++ String.concat "" reads).
    + rewrite <- flat_map_app. f_equal.
      rewrite <- append_append. symmetry. apply split_newline_app.
    + destruct reads; cbn [String.concat]; [apply append_empty_r | reflexivity].
Qed.

(** X22.  What [streamResponse] yields does not depend on how the response
    body is cut into reads: it is the parse of every non-blank line of the
    whole text, in order (a line that does not parse is skipped), the last
    line included even without a final newline.  So two streams that deliver
    the same text yield the same chunks. *)
Theorem streamResponse_yields_lines_of_whole_text {StreamChunk : Type}
  (JSON_parse : string -> option StreamChunk) (trim : string -> string)
  (reads : list string) :
  streamResponse JSON_parse trim reads
  = flat_map (yield_line JSON_parse trim) (split_newline (String.concat "" reads)) /\
  forall reads',
    String.concat "" reads' = String.concat "" reads ->
    streamResponse JSON_parse trim reads' = streamResponse JSON_parse trim reads.
Proof.
  assert (H : forall l, streamResponse JSON_parse trim l
                        = flat_map (yield_line JSON_parse trim)
                            (split_newline (String.concat "" l))).
  { intros l. unfold streamResponse. rewrite read_loop_whole_text by reflexivity.
    reflexivity. }
  split; [apply H |]. intros reads' Hsame. rewrite !H, Hsame. reflexivity.
Qed.

Lemma streamResponse_yields_lines_of_whole_text_witness :
  streamResponse (fun line => Some (String.length line)) (fun line => line)
    ["{a}" ++ String newline "" ++ "{b"; "c}" ++ String newline "" ++ String newline "" ++ "{d}"]
  = streamResponse (fun line => Some (String.length line)) (fun line => line)
      ["{a}" ++ String newline "" ++ "{bc}" ++ String newline "" ++ String newline "" ++ "{d}"].
Proof.
  apply (streamResponse_yields_lines_of_whole_text
           (fun line => Some (String.length line)) (fun line => line)
           ["{a}" ++ String newline "" ++ "{bc}" ++ String newline "" ++ String newline "" ++ "{d}"]).
  reflexivity.
Defined.

(** X23.  What [GET /api/health] answers.  It is 200 exactly when the mode
    is local, the daemon answers [GET <daemon url>/health] within five
    seconds with a 2xx status, and the database answers [SELECT 1]; it is 500
    exactly in supabase mode, for which the factory throws; otherwise it is
    503.  The probe has its own five-second limit: the configured
    [EXAI_TIMEOUT] has no influence on the answer. *)
Theorem health_GET_status (env : Env) (probe : string -> DaemonReply)
  (select_1 : Settled unit) :
  let r := health_GET env probe select_1 in
  let reply := probe (or_default (EXAI_DAEMON_URL env) "http://127.0.0.1:8765" ++ "/health") in
  (health_status r = 200 \/ health_status r = 503 \/ health_status r = 500) /\
  (health_status r = 200 <->
   fst (AdapterFactory.getMode env) = local /\
   latency reply < 5000 /\
   (exists response, outcome reply = Http response /\ ok response = true) /\
   select_1 = Fulfilled tt) /\
  (health_status r = 500 <-> fst (AdapterFactory.getMode env) = supabase) /\
  (forall timeout,
     health_GET (mkEnv (ADAPTER_MODE env) (EXAI_DAEMON_URL env) (EXAI_CLOUD_URL env) timeout)
       probe select_1 = r).
Proof.
  cbv zeta.
  assert (Htimeout : forall timeout,
            health_GET (mkEnv (ADAPTER_MODE env) (EXAI_DAEMON_URL env) (EXAI_CLOUD_URL env)
                          timeout) probe select_1
            = health_GET env probe select_1).
  { intros timeout. unfold health_GET, AdapterFactory_healthCheck,
      AdapterFactory.getExaiAdapter, AdapterFactory.getDatabaseAdapter, AdapterFactory.getMode.
    cbn [ADAPTER_MODE EXAI_DAEMON_URL EXAI_TIMEOUT].
    destruct (ADAPTER_MODE env) as [mode |]; [| reflexivity].
    destruct (String.eqb mode "local"); [reflexivity |].
    destruct (String.eqb mode "supabase"); reflexivity. }
  split; [| split; [| split; [| exact Htimeout]]];
    unfold health_GET, AdapterFactory_healthCheck, AdapterFactory.getExaiAdapter,
      AdapterFactory.getDatabaseAdapter, LocalExaiAdapter_healthCheck,
      LocalDatabaseAdapter_healthCheck;
    cbn [LocalExaiAdapter.daemonUrl];
    destruct (fst (AdapterFactory.getMode env));
    cbn [health_status health_exai health_database instanceof_Error new_Error message];
    try (cbn; intuition (auto; discriminate)).
  - destruct (_ && _); cbn; auto.
  - destruct (Z.ltb_spec (latency (probe (or_default (EXAI_DAEMON_URL env)
                                             "http://127.0.0.1:8765" ++ "/health"))) 5000)
      as [Hfast | Hslow].
    + replace (5000 <=? _) with false by (symmetry; apply Z.leb_gt; exact Hfast).
      destruct (outcome _) as [msg | response].
      * cbn. split; [discriminate |]. intros (_ & _ & (r & [=] & _) & _).
      * destruct (ok response) eqn:Hok, select_1 as [[] | e]; cbn; split;
          try discriminate; try (intros (_ & _ & (r & [= <-] & Hr) & Hs); congruence).
        intros _. repeat split; eauto.
    + replace (5000 <=? _) with true by (symmetry; apply Z.leb_le; exact Hslow).
      cbn. split; [discriminate |]. intros (_ & Hlt & _). lia.
  - destruct (_ && _); cbn; split; discriminate.
Qed.

Lemma health_GET_status_witness :
  health_status (health_GET Examples.env_unset
                   (fun url => mkReply 20 (Http (mkHttpResponse 204 "No Content" 0
                                                    (NotJson "Unexpected end of JSON input"))))
                   (Fulfilled tt)) = 200.
Proof.
  apply (health_GET_status Examples.env_unset
           (fun url => mkReply 20 (Http (mkHttpResponse 204 "No Content" 0
                                            (NotJson "Unexpected end of JSON input"))))
           (Fulfilled tt)).
  split; [reflexivity |]. split; [reflexivity |]. split; [| reflexivity].
  eexists; split; reflexivity.
Defined.

Lemma apply_SupabaseOp_foreign_keys (op : SupabaseOp) (t : Z) (s : SupabaseDb) :
  foreign_keys_hold s -> foreign_keys_hold (apply_SupabaseOp op t s).
Proof.
  intros [Hwf Hst]. unfold foreign_keys_hold.
  destruct op as [[data | id | id data | data | id | id data | data | workflowId] | id | id | id];
    cbn [apply_SupabaseOp apply_DbOp createConversation getConversation updateConversation
         createWorkflow getWorkflow updateWorkflow createWorkflowStep getWorkflowSteps
         SupabaseDatabaseAdapter.adapter].
  - (* createConversation *)
    cbn. split; [| exact Hst]. intros wid wf Hwid. destruct (Hwf wid wf Hwid) as [c Hc].
    destruct (decide (WorkflowRow.conversation_id wf = fresh (dom (exai_conversations s))))
      as [-> | Hne].
    + rewrite lookup_insert_eq. eauto.
    + rewrite lookup_insert_ne by congruence. eauto.
  - cbn. auto.
  - (* updateConversation *)
    unfold SupabaseDatabaseAdapter.updateConversation.
    destruct (exai_conversations s !! id) as [c0 |] eqn:Hc0; cbn; [| auto].
    split; [| exact Hst]. intros wid wf Hwid. destruct (Hwf wid wf Hwid) as [c Hc].
    destruct (decide (WorkflowRow.conversation_id wf = id)) as [-> | Hne].
    + rewrite lookup_insert_eq. eauto.
    + rewrite lookup_insert_ne by congruence. eauto.
  - (* createWorkflow *)
    unfold SupabaseDatabaseAdapter.createWorkflow. range_check; [| cbn; auto].
    destruct (exai_conversations s !! CreateWorkflowInput.conversationId data) as [c |] eqn:Hc;
      cbn; [| auto].
    split.
    + intros wid wf. destruct (decide (wid = fresh (dom (exai_workflows s)))) as [-> | Hne].
      * rewrite lookup_insert_eq. intros [= <-]. cbn. eauto.
      * rewrite lookup_insert_ne by congruence. apply Hwf.
    + intros r Hr. destruct (Hst r Hr) as [wf Hwf'].
      destruct (decide (WorkflowStepRow.workflow_id r = fresh (dom (exai_workflows s))))
        as [-> | Hne].
      * rewrite lookup_insert_eq. eauto.
      * rewrite lookup_insert_ne by congruence. eauto.
  - cbn. auto.
  - (* updateWorkflow *)
    unfold SupabaseDatabaseAdapter.updateWorkflow. range_check; [| cbn; auto].
    destruct (exai_workflows s !! id) as [wf0 |] eqn:Hwf0; cbn; [| auto].
    split.
    + intros wid wf. destruct (decide (wid = id)) as [-> | Hne].
      * rewrite lookup_insert_eq. intros [= <-]. cbn. eapply Hwf, Hwf0.
      * rewrite lookup_insert_ne by congruence. apply Hwf.
    + intros r Hr. destruct (Hst r Hr) as [wf Hwf'].
      destruct (decide (WorkflowStepRow.workflow_id r = id)) as [-> | Hne].
      * rewrite lookup_insert_eq. eauto.
      * rewrite lookup_insert_ne by congruence. eauto.
  - (* createWorkflowStep *)
    unfold SupabaseDatabaseAdapter.createWorkflowStep. range_check; [| cbn; auto].
    destruct (exai_workflows s !! CreateWorkflowStepInput.workflowId data) as [wf0 |] eqn:Hwf0;
      cbn; [| auto].
    split; [exact Hwf |].
    intros r. rewrite elem_of_app, list_elem_of_singleton. intros [Hr | ->].
    + apply Hst, Hr.
    + cbn. eauto.
  - cbn. auto.
  - (* deleteConversation *)
    cbn. split.
    + intros wid wf Hwid. apply map_lookup_filter_Some in Hwid as [Hwid Hother]. cbn in Hother.
      rewrite lookup_delete_ne by congruence. eapply Hwf, Hwid.
    + intros r Hr. apply list_elem_of_filter in Hr as [Hkept Hr].
      destruct (Hst r Hr) as [wf Hwf'].
      exists wf. apply map_lookup_filter_Some. split; [exact Hwf' |]. cbn.
      intros Hgone. apply Hkept, elem_of_dom. exists wf.
      apply map_lookup_filter_Some. split; [exact Hwf' | exact Hgone].
  - (* deleteWorkflow *)
    cbn. split.
    + intros wid wf Hwid. apply lookup_delete_Some in Hwid as [_ Hwid]. eapply Hwf, Hwid.
    + intros r Hr. apply list_elem_of_filter in Hr as [Hkept Hr].
      rewrite lookup_delete_ne by congruence. apply Hst, Hr.
  - (* deleteWorkflowStep *)
    cbn. split; [exact Hwf |].
    intros r Hr. apply list_elem_of_filter in Hr as [_ Hr]. apply Hst, Hr.
Qed.

(** X24.  The Supabase adapter keeps the foreign keys of its tables.  If
    every workflow row references a stored conversation and every step row a
    stored workflow, the same holds after any sequence of adapter operations,
    deletes included: deleting a conversation or a workflow takes the rows
    that reference it along, and a create that names no stored parent is
    rejected without a write. *)
Theorem supabase_foreign_keys_are_kept (ops : list (Z * SupabaseOp)) (s : SupabaseDb) :
  foreign_keys_hold s ->
  foreign_keys_hold (foldl (fun s op => apply_SupabaseOp op.2 op.1 s) s ops).
Proof.
  revert s. induction ops as [| [t op] ops IH]; intros s Hs; cbn [foldl]; [exact Hs |].
  apply IH, apply_SupabaseOp_foreign_keys, Hs.
Qed.

Lemma supabase_foreign_keys_are_kept_witness :
  foreign_keys_hold
    (foldl (fun s op => apply_SupabaseOp op.2 op.1 s) empty_SupabaseDb
       [(100, Op (CreateConversation (CreateConversationInput.mk "alice" "debug" None)));
        (110, Op (CreateWorkflow (CreateWorkflowInput.mk "0" "debug" "running" 1 3 None None)));
        (120, Op (CreateWorkflowStep
                    (CreateWorkflowStepInput.mk "0" 1 "null pointer suspected" None None
                       "running" (StepMetadata.mk "inspect" None None None None None))));
        (130, DeleteConversation "0")]).
Proof.
  apply supabase_foreign_keys_are_kept. split.
  - intros wid wf Hwid. cbn in Hwid. rewrite lookup_empty in Hwid. discriminate.
  - intros r Hr. cbn in Hr. apply elem_of_nil in Hr. destruct Hr.
Defined.
